(** * Static site stack: the resource graph built by [StaticSiteStack.__init__]

    A shallow embedding of [specter_static_site/static_site_stack.py].  The
    constructor is a straight-line sequence of construct declarations with one
    guard that raises; it is embedded as a computation in a state-and-exception
    monad whose state is the stack under construction.  Declarations made
    before a [raise] stay attached to the stack, exactly as the Python objects
    created before the exception stay children of [self].

    The framework constructors ([s3.Bucket], [cloudfront.Distribution], ...)
    are embedded as what the source passes to them: each call records the
    construct id and the keyword arguments of the call.  What the framework
    does with a call is not in the source file: it may raise, and it may
    attach constructs of its own to the stack.  The constructor is therefore
    embedded over an arbitrary [Framework]; [StaticSiteStack] is the
    constructor over the framework that accepts every call and attaches
    nothing of its own. *)

From Stdlib Require Import String Ascii List Bool.
Import ListNotations.
Open Scope string_scope.

(** ** The Python fragments the constructor relies on *)

Module Py.

(** Truth value of a [str | None] argument: [None] and the empty string are
    falsy, every other string is truthy. *)
Definition truthy (o : option string) : bool :=
  match o with
  | None => false
  | Some EmptyString => false
  | Some (String _ _) => true
  end.

(** [a or b] for [a : str | None] and [b : str]. *)
Definition or_ (a : option string) (b : string) : string :=
  match a with
  | Some (String c s) => String c s
  | _ => b
  end.

(** [str.replace(old, new)]: left-to-right, non-overlapping.  [skip] counts
    the characters of a match that are still to be dropped. *)
Fixpoint replace_from (skip : nat) (s old new : string) : string :=
  match s with
  | EmptyString => EmptyString
  | String c rest =>
      match skip with
      | S k => replace_from k rest old new
      | O =>
          if prefix old s
          then new ++ replace_from (String.length old - 1) rest old new
          else String c (replace_from 0 rest old new)
      end
  end.

(** With an empty pattern Python puts [new] before every character and at
    the end. *)
Fixpoint intersperse (s new : string) : string :=
  match s with
  | EmptyString => new
  | String c rest => new ++ String c (intersperse rest new)
  end.

(** The string held by an argument known to be truthy. *)
Definition str (o : option string) : string :=
  match o with
  | Some s => s
  | None => EmptyString
  end.

Definition replace (s old new : string) : string :=
  match old with
  | EmptyString => intersperse s new
  | String _ _ => replace_from 0 s old new
  end.

End Py.

(** ** The framework types the constructor mentions *)

Definition ConstructId := string.

(** A value that is either known at construction time or a deferred attribute
    of an earlier construct ([distribution.distribution_id], ...). *)
Inductive Value : Type :=
| Literal (s : string)
| Attribute (construct : ConstructId) (name : string).

Inductive Duration : Type :=
| Duration_days (n : nat)
| Duration_minutes (n : nat).

Definition to_seconds (d : Duration) : nat :=
  match d with
  | Duration_days n => n * 24 * 60 * 60
  | Duration_minutes n => n * 60
  end.

Inductive RemovalPolicy : Type :=
| DESTROY | RETAIN | SNAPSHOT | RETAIN_ON_UPDATE_OR_DELETE.

Module s3.

Inductive BlockPublicAccess : Type :=
| BLOCK_ALL | BLOCK_ACLS | BLOCK_ACLS_ONLY.

Inductive BucketEncryption : Type :=
| UNENCRYPTED | KMS_MANAGED | S3_MANAGED | KMS | DSSE_MANAGED | DSSE.

Inductive ObjectOwnership : Type :=
| BUCKET_OWNER_ENFORCED | BUCKET_OWNER_PREFERRED | OBJECT_WRITER.

Record LifecycleRule : Type := {
  expiration : option Duration;
  abort_incomplete_multipart_upload_after : option Duration;
  noncurrent_version_expiration : option Duration
}.

(** Keyword arguments of [s3.Bucket]; the ones not passed at every call
    site are optional. *)
Record Bucket : Type := {
  block_public_access : BlockPublicAccess;
  encryption : BucketEncryption;
  enforce_ssl : bool;
  removal_policy : RemovalPolicy;
  auto_delete_objects : bool;
  object_ownership : option ObjectOwnership;
  server_access_logs_bucket : option ConstructId;
  versioned : option bool;
  lifecycle_rules : list LifecycleRule
}.

End s3.

Module route53.

Record HostedZoneAttributes : Type := {
  hosted_zone_id : string;
  zone_name : string
}.

Inductive AliasTarget : Type :=
| CloudFrontTarget (distribution : ConstructId).

Inductive RecordTarget : Type :=
| from_alias (t : AliasTarget).

(** Keyword arguments shared by [ARecord] and [AaaaRecord]; without a
    [record_name] the record is for the zone apex. *)
Record RecordProps : Type := {
  zone : ConstructId;
  record_name : option string;
  target : RecordTarget
}.

End route53.

Module acm.

Inductive CertificateValidation : Type :=
| from_dns (hosted_zone : ConstructId)
| from_email.

Record Certificate : Type := {
  domain_name : string;
  subject_alternative_names : list string;
  validation : CertificateValidation
}.

End acm.

Module cloudfront.

Inductive ViewerProtocolPolicy : Type :=
| HTTPS_ONLY | REDIRECT_TO_HTTPS | ALLOW_ALL.

Inductive ResponseHeadersPolicy : Type :=
| CORS_ALLOW_ALL_ORIGINS
| CORS_ALLOW_ALL_ORIGINS_WITH_PREFLIGHT
| SECURITY_HEADERS
| CORS_ALLOW_ALL_ORIGINS_AND_SECURITY_HEADERS
| CORS_ALLOW_ALL_ORIGINS_WITH_PREFLIGHT_AND_SECURITY_HEADERS.

Inductive Origin : Type :=
| S3BucketOrigin_with_origin_access_control (bucket : ConstructId).

Record BehaviorOptions : Type := {
  origin : Origin;
  viewer_protocol_policy : ViewerProtocolPolicy;
  response_headers_policy : ResponseHeadersPolicy
}.

Record ErrorResponse : Type := {
  http_status : nat;
  response_http_status : nat;
  response_page_path : string;
  ttl : Duration
}.

Record Distribution : Type := {
  default_behavior : BehaviorOptions;
  domain_names : list string;
  certificate : ConstructId;
  default_root_object : string;
  error_responses : list ErrorResponse;
  web_acl_id : option string
}.

End cloudfront.

Module cloudwatch.

Inductive ComparisonOperator : Type :=
| GREATER_THAN_OR_EQUAL_TO_THRESHOLD
| GREATER_THAN_THRESHOLD
| LESS_THAN_THRESHOLD
| LESS_THAN_OR_EQUAL_TO_THRESHOLD.

Inductive TreatMissingData : Type :=
| BREACHING | NOT_BREACHING | IGNORE | MISSING.

Record Metric : Type := {
  namespace : string;
  metric_name : string;
  dimensions_map : list (string * Value);
  statistic : string;
  period : Duration;
  label : option string
}.

Record Alarm : Type := {
  metric : Metric;
  threshold : nat;
  evaluation_periods : nat;
  comparison_operator : ComparisonOperator;
  alarm_description : string;
  treat_missing_data : TreatMissingData
}.

Record GraphWidget : Type := {
  title : string;
  width : nat;
  left : list Metric
}.

Record Dashboard : Type := {
  dashboard_name : string;
  widgets : list (list GraphWidget)
}.

End cloudwatch.

Module s3deploy.

Inductive Source : Type :=
| asset (path : string).

Record BucketDeployment : Type := {
  sources : list Source;
  destination_bucket : ConstructId;
  distribution : ConstructId;
  distribution_paths : list string
}.

End s3deploy.

Record CfnOutput : Type := {
  value : Value;
  description : string
}.

Record NagPackSuppression : Type := {
  id : string;
  reason : string
}.

(** Everything the constructor can attach to the stack.  The two [from_...]
    lookups attach a reference to something that exists outside the stack;
    the other constructs declare a resource, a deployment or an output. *)
Inductive Construct : Type :=
| Bucket (b : s3.Bucket)
| HostedZone_from_hosted_zone_attributes (z : route53.HostedZoneAttributes)
| Certificate_from_certificate_arn (arn : string)
| Certificate (c : acm.Certificate)
| Distribution (d : cloudfront.Distribution)
| Alarm (a : cloudwatch.Alarm)
| Dashboard (d : cloudwatch.Dashboard)
| ARecord (r : route53.RecordProps)
| AaaaRecord (r : route53.RecordProps)
| BucketDeployment (d : s3deploy.BucketDeployment)
| Output (o : CfnOutput).

(** ** The stack under construction *)

(** [children] are the constructs the constructor has declared with [self]
    as their scope, in declaration order; [framework_children] are the ids
    of the constructs the framework has attached to the stack on its own
    while serving those declarations. *)
Record Stack : Type := {
  stack_description : string;
  children : list (ConstructId * Construct);
  resource_suppressions : list (ConstructId * list NagPackSuppression);
  stack_suppressions : list NagPackSuppression;
  framework_children : list ConstructId
}.

(** [Stack.__init__(scope, construct_id, description=...)]: an empty stack. *)
Definition Stack_init (description : string) : Stack :=
  {| stack_description := description;
     children := [];
     resource_suppressions := [];
     stack_suppressions := [];
     framework_children := [] |}.

(** The exceptions that can leave the constructor: the [ValueError] it
    raises itself, and whatever a framework call raises, which the
    constructor does not catch. *)
Inductive Exception : Type :=
| ValueError (message : string)
| FrameworkException (description : string).

(** What a framework constructor does with a declaration.  It either
    constructs it, possibly attaching constructs of its own to the stack, or
    raises; a constructor that raises may already have attached the
    construct to its scope ([half_built]).  Evaluating the arguments of the
    call is part of the call. *)
Inductive Verdict : Type :=
| Constructed (attached : list ConstructId)
| Failed (description : string) (half_built : bool)
         (attached : list ConstructId).

(** The framework, as far as the constructor depends on it: the superclass
    constructor, the construct constructors, the two suppression calls.
    The first and the last either succeed or raise. *)
Record Framework : Type := {
  stack_init : string -> option string;
  build_construct : Stack -> ConstructId -> Construct -> Verdict;
  suppress : Stack -> option ConstructId -> list NagPackSuppression ->
             option string
}.

(** The framework that accepts every call and attaches nothing. *)
Definition accepting : Framework :=
  {| stack_init := fun _ => None;
     build_construct := fun _ _ _ => Constructed [];
     suppress := fun _ _ _ => None |}.

Inductive Outcome (A : Type) : Type :=
| Returned (a : A)
| Raised (e : Exception).

Arguments Returned {A} a.
Arguments Raised {A} e.

(** Computations over the stack that may raise.  The stack reached so far is
    kept when an exception is raised. *)
Definition Build (A : Type) : Type := Stack -> Stack * Outcome A.

Definition ret {A : Type} (a : A) : Build A :=
  fun st => (st, Returned a).

Definition bind {A B : Type} (m : Build A) (k : A -> Build B) : Build B :=
  fun st =>
    match m st with
    | (st', Returned a) => k a st'
    | (st', Raised e) => (st', Raised e)
    end.

Definition raise {A : Type} (e : Exception) : Build A :=
  fun st => (st, Raised e).

Declare Scope build_scope.
Delimit Scope build_scope with build.
Notation "x <- m ;; k" := (bind m (fun x => k))
  (at level 100, m at next level, right associativity) : build_scope.
Notation "m ;; k" := (bind m (fun _ => k))
  (at level 100, right associativity) : build_scope.

(** The stack with one more declared construct and the constructs the
    framework attached along with it. *)
Definition attach (st : Stack) (declared : list (ConstructId * Construct))
    (attached : list ConstructId) : Stack :=
  {| stack_description := stack_description st;
     children := children st ++ declared;
     resource_suppressions := resource_suppressions st;
     stack_suppressions := stack_suppressions st;
     framework_children := framework_children st ++ attached |}.

(** Constructing a construct with [self] as its scope: when the framework
    constructs it, it is appended to the children of the stack and the call
    yields a handle on it; when the framework raises, the exception leaves
    the constructor. *)
Definition declare (fw : Framework) (cid : ConstructId) (c : Construct)
  : Build ConstructId :=
  fun st =>
    match build_construct fw st cid c with
    | Constructed attached => (attach st [(cid, c)] attached, Returned cid)
    | Failed e half_built attached =>
        (attach st (if half_built then [(cid, c)] else []) attached,
         Raised (FrameworkException e))
    end.

Module NagSuppressions.

Definition add_resource_suppressions (fw : Framework)
    (construct : ConstructId) (l : list NagPackSuppression) : Build unit :=
  fun st =>
    match suppress fw st (Some construct) l with
    | None =>
        ({| stack_description := stack_description st;
            children := children st;
            resource_suppressions :=
              resource_suppressions st ++ [(construct, l)];
            stack_suppressions := stack_suppressions st;
            framework_children := framework_children st |},
         Returned tt)
    | Some e => (st, Raised (FrameworkException e))
    end.

Definition add_stack_suppressions (fw : Framework)
    (l : list NagPackSuppression) : Build unit :=
  fun st =>
    match suppress fw st None l with
    | None =>
        ({| stack_description := stack_description st;
            children := children st;
            resource_suppressions := resource_suppressions st;
            stack_suppressions := stack_suppressions st ++ l;
            framework_children := framework_children st |},
         Returned tt)
    | Some e => (st, Raised (FrameworkException e))
    end.

End NagSuppressions.

(** ** The constructor *)

Section StaticSiteStack.

Variable framework : Framework.
Variables (domain_name dist_path : string).
Variables (hosted_zone_id certificate_arn web_acl_id dashboard_name
           : option string).

(** Line 43 of the source. *)
Definition resolved_dashboard_name : string :=
  Py.replace (Py.or_ dashboard_name domain_name) "." "-".

Local Open Scope build_scope.

Definition StaticSiteStack_body : Build unit :=
  (* S3 access logs bucket *)
  s3_access_logs_bucket <-
    declare framework "S3AccessLogsBucket" (Bucket {|
      s3.block_public_access := s3.BLOCK_ALL;
      s3.encryption := s3.S3_MANAGED;
      s3.enforce_ssl := true;
      s3.removal_policy := RETAIN;
      s3.auto_delete_objects := false;
      s3.object_ownership := None;
      s3.server_access_logs_bucket := None;
      s3.versioned := None;
      s3.lifecycle_rules := [
        {| s3.expiration := Some (Duration_days 180);
           s3.abort_incomplete_multipart_upload_after := None;
           s3.noncurrent_version_expiration := None |} ] |}) ;;
  (* CloudFront access logs bucket *)
  cloudfront_logs_bucket <-
    declare framework "CloudFrontLogsBucket" (Bucket {|
      s3.block_public_access := s3.BLOCK_ALL;
      s3.encryption := s3.KMS_MANAGED;
      s3.enforce_ssl := true;
      s3.removal_policy := RETAIN;
      s3.auto_delete_objects := false;
      s3.object_ownership := Some s3.BUCKET_OWNER_PREFERRED;
      s3.server_access_logs_bucket := None;
      s3.versioned := None;
      s3.lifecycle_rules := [
        {| s3.expiration := Some (Duration_days 180);
           s3.abort_incomplete_multipart_upload_after := None;
           s3.noncurrent_version_expiration := None |} ] |}) ;;
  (* S3 bucket for site assets *)
  site_bucket <-
    declare framework "SiteBucket" (Bucket {|
      s3.block_public_access := s3.BLOCK_ALL;
      s3.encryption := s3.S3_MANAGED;
      s3.enforce_ssl := true;
      s3.removal_policy := DESTROY;
      s3.auto_delete_objects := true;
      s3.object_ownership := None;
      s3.server_access_logs_bucket := Some s3_access_logs_bucket;
      s3.versioned := Some true;
      s3.lifecycle_rules := [
        {| s3.expiration := None;
           s3.abort_incomplete_multipart_upload_after := Some (Duration_days 1);
           s3.noncurrent_version_expiration := Some (Duration_days 30) |} ] |}) ;;
  (* Look up Route 53 hosted zone if provided *)
  hosted_zone <-
    (if Py.truthy hosted_zone_id
     then
       z <- declare framework "Zone" (HostedZone_from_hosted_zone_attributes {|
              route53.hosted_zone_id := Py.str hosted_zone_id;
              route53.zone_name := domain_name |}) ;;
       ret (Some z)
     else ret None) ;;
  (* Resolve SSL certificate *)
  certificate <-
    (if Py.truthy certificate_arn
     then declare framework "Cert"
            (Certificate_from_certificate_arn (Py.str certificate_arn))
     else
       match hosted_zone with
       | Some zone =>
           declare framework "SiteCertificate" (Certificate {|
             acm.domain_name := domain_name;
             acm.subject_alternative_names := ["www." ++ domain_name];
             acm.validation := acm.from_dns zone |})
       | None =>
           raise (ValueError
             ("You must provide either certificate_arn or hosted_zone_id "
              ++ "so a certificate can be created."))
       end) ;;
  (* CloudFront distribution *)
  distribution <-
    declare framework "SiteDistribution" (Distribution {|
      cloudfront.default_behavior := {|
        cloudfront.origin :=
          cloudfront.S3BucketOrigin_with_origin_access_control site_bucket;
        cloudfront.viewer_protocol_policy := cloudfront.REDIRECT_TO_HTTPS;
        cloudfront.response_headers_policy := cloudfront.SECURITY_HEADERS |};
      cloudfront.domain_names := [domain_name; "www." ++ domain_name];
      cloudfront.certificate := certificate;
      cloudfront.default_root_object := "index.html";
      cloudfront.error_responses := [
        {| cloudfront.http_status := 403;
           cloudfront.response_http_status := 200;
           cloudfront.response_page_path := "/index.html";
           cloudfront.ttl := Duration_minutes 5 |};
        {| cloudfront.http_status := 404;
           cloudfront.response_http_status := 200;
           cloudfront.response_page_path := "/index.html";
           cloudfront.ttl := Duration_minutes 5 |} ];
      cloudfront.web_acl_id := web_acl_id |}) ;;
  (* CloudWatch alarms *)
  declare framework "High5xxErrorRate" (Alarm {|
    cloudwatch.metric := {|
      cloudwatch.namespace := "AWS/CloudFront";
      cloudwatch.metric_name := "5xxErrorRate";
      cloudwatch.dimensions_map :=
        [("DistributionId", Attribute distribution "distribution_id")];
      cloudwatch.statistic := "Average";
      cloudwatch.period := Duration_minutes 5;
      cloudwatch.label := None |};
    cloudwatch.threshold := 5;
    cloudwatch.evaluation_periods := 2;
    cloudwatch.comparison_operator := cloudwatch.GREATER_THAN_THRESHOLD;
    cloudwatch.alarm_description := "CloudFront 5xx error rate exceeded 5%";
    cloudwatch.treat_missing_data := cloudwatch.NOT_BREACHING |}) ;;
  declare framework "High4xxErrorRate" (Alarm {|
    cloudwatch.metric := {|
      cloudwatch.namespace := "AWS/CloudFront";
      cloudwatch.metric_name := "4xxErrorRate";
      cloudwatch.dimensions_map :=
        [("DistributionId", Attribute distribution "distribution_id")];
      cloudwatch.statistic := "Average";
      cloudwatch.period := Duration_minutes 5;
      cloudwatch.label := None |};
    cloudwatch.threshold := 10;
    cloudwatch.evaluation_periods := 2;
    cloudwatch.comparison_operator := cloudwatch.GREATER_THAN_THRESHOLD;
    cloudwatch.alarm_description := "CloudFront 4xx error rate exceeded 10%";
    cloudwatch.treat_missing_data := cloudwatch.NOT_BREACHING |}) ;;
  declare framework "SiteDashboard" (Dashboard {|
    cloudwatch.dashboard_name := resolved_dashboard_name;
    cloudwatch.widgets := [
      [ {| cloudwatch.title := "CloudFront Error Rates";
           cloudwatch.width := 12;
           cloudwatch.left := [
             {| cloudwatch.namespace := "AWS/CloudFront";
                cloudwatch.metric_name := "5xxErrorRate";
                cloudwatch.dimensions_map :=
                  [("DistributionId",
                    Attribute distribution "distribution_id")];
                cloudwatch.statistic := "Average";
                cloudwatch.period := Duration_minutes 5;
                cloudwatch.label := Some "5xx Error Rate" |};
             {| cloudwatch.namespace := "AWS/CloudFront";
                cloudwatch.metric_name := "4xxErrorRate";
                cloudwatch.dimensions_map :=
                  [("DistributionId",
                    Attribute distribution "distribution_id")];
                cloudwatch.statistic := "Average";
                cloudwatch.period := Duration_minutes 5;
                cloudwatch.label := Some "4xx Error Rate" |} ] |};
        {| cloudwatch.title := "CloudFront Requests";
           cloudwatch.width := 12;
           cloudwatch.left := [
             {| cloudwatch.namespace := "AWS/CloudFront";
                cloudwatch.metric_name := "Requests";
                cloudwatch.dimensions_map :=
                  [("DistributionId",
                    Attribute distribution "distribution_id")];
                cloudwatch.statistic := "Sum";
                cloudwatch.period := Duration_minutes 5;
                cloudwatch.label := Some "Total Requests" |} ] |} ] ] |}) ;;
  (* Route 53 alias records for apex and www *)
  match hosted_zone with
  | Some zone =>
      let cf_target := route53.CloudFrontTarget distribution in
      declare framework "ApexAlias" (ARecord {|
        route53.zone := zone;
        route53.record_name := None;
        route53.target := route53.from_alias cf_target |}) ;;
      declare framework "ApexAliasIPv6" (AaaaRecord {|
        route53.zone := zone;
        route53.record_name := None;
        route53.target := route53.from_alias cf_target |}) ;;
      declare framework "WwwAlias" (ARecord {|
        route53.zone := zone;
        route53.record_name := Some "www";
        route53.target := route53.from_alias cf_target |}) ;;
      declare framework "WwwAliasIPv6" (AaaaRecord {|
        route53.zone := zone;
        route53.record_name := Some "www";
        route53.target := route53.from_alias cf_target |}) ;;
      ret tt
  | None => ret tt
  end ;;
  (* Deploy site assets from dist/ *)
  declare framework "DeploySite" (BucketDeployment {|
    s3deploy.sources := [s3deploy.asset dist_path];
    s3deploy.destination_bucket := site_bucket;
    s3deploy.distribution := distribution;
    s3deploy.distribution_paths := ["/*"] |}) ;;
  (* cdk-nag suppressions for accepted deviations *)
  NagSuppressions.add_resource_suppressions framework cloudfront_logs_bucket
    [ {| id := "AwsSolutions-S1";
         reason := "CloudFrontLogsBucket is a logging destination; enabling access logs on it would be circular. CloudFront standard logging is disabled due to Free pricing plan incompatibility (HTTP 400)." |} ] ;;
  NagSuppressions.add_resource_suppressions framework distribution
    [ {| id := "AwsSolutions-CFR3";
         reason := "CloudFront standard logging is incompatible with the Free pricing plan (returns HTTP 400). S3 access logging is active at the bucket layer via S3AccessLogsBucket." |} ] ;;
  NagSuppressions.add_stack_suppressions framework
    [ {| id := "AwsSolutions-IAM4";
         reason := "CDK BucketDeployment L2 construct attaches AWSLambdaBasicExecutionRole to its internal singleton Lambda service role; not configurable without replacing the construct." |};
      {| id := "AwsSolutions-IAM5";
         reason := "CDK BucketDeployment L2 construct requires wildcard S3 permissions on its internal Lambda role to deploy assets; not configurable without replacing the construct." |};
      {| id := "AwsSolutions-L1";
         reason := "CDK BucketDeployment L2 construct manages its own internal Lambda runtime version; not configurable without replacing the construct." |} ] ;;
  declare framework "DistributionDomainName" (Output {|
    value := Attribute distribution "distribution_domain_name";
    description := "CloudFront URL" |}) ;;
  declare framework "BucketName" (Output {|
    value := Attribute site_bucket "bucket_name";
    description := "S3 Bucket Name" |}) ;;
  declare framework "SiteUrl" (Output {|
    value := Literal ("https://" ++ domain_name);
    description := "Site URL" |}) ;;
  declare framework "CloudFrontLogsBucketName" (Output {|
    value := Attribute cloudfront_logs_bucket "bucket_name";
    description := "CloudFront Logs Bucket Name" |}) ;;
  declare framework "S3AccessLogsBucketName" (Output {|
    value := Attribute s3_access_logs_bucket "bucket_name";
    description := "S3 Access Logs Bucket Name" |}) ;;
  ret tt.

(** [StaticSiteStack(scope, construct_id, domain_name=..., ...)] over a
    framework: the superclass constructor makes the empty stack, then the
    body runs on it.  The result is the stack as the exit of [__init__]
    leaves it and whether [__init__] returned or raised. *)
Definition StaticSiteStack_on : Stack * Outcome unit :=
  let description := "Static site hosting for " ++ domain_name in
  match stack_init framework description with
  | None => StaticSiteStack_body (Stack_init description)
  | Some e => (Stack_init description, Raised (FrameworkException e))
  end.

End StaticSiteStack.

(** The constructor over the framework that accepts every call. *)
Definition StaticSiteStack (domain_name dist_path : string)
    (hosted_zone_id certificate_arn web_acl_id dashboard_name : option string)
  : Stack * Outcome unit :=
  StaticSiteStack_on accepting domain_name dist_path
    hosted_zone_id certificate_arn web_acl_id dashboard_name.

(** ** Reading the resulting stack *)

(** The first child declared under a construct id. *)
Fixpoint lookup (cid : ConstructId) (l : list (ConstructId * Construct))
  : option Construct :=
  match l with
  | [] => None
  | (k, c) :: rest => if String.eqb k cid then Some c else lookup cid rest
  end.

Definition is_bucket (c : Construct) : bool :=
  match c with Bucket _ => true | _ => false end.

Definition is_certificate (c : Construct) : bool :=
  match c with
  | Certificate _ | Certificate_from_certificate_arn _ => true
  | _ => false
  end.

Definition is_distribution (c : Construct) : bool :=
  match c with Distribution _ => true | _ => false end.

Definition is_alarm (c : Construct) : bool :=
  match c with Alarm _ => true | _ => false end.

Definition is_dashboard (c : Construct) : bool :=
  match c with Dashboard _ => true | _ => false end.

Definition is_dns_record (c : Construct) : bool :=
  match c with ARecord _ | AaaaRecord _ => true | _ => false end.

Definition is_deployment (c : Construct) : bool :=
  match c with BucketDeployment _ => true | _ => false end.

(** The children of a stack that satisfy [f], in declaration order. *)
Definition entities (f : Construct -> bool) (st : Stack)
  : list (ConstructId * Construct) :=
  filter (fun kc => f (snd kc)) (children st).

(** The metrics a dashboard plots, widget by widget. *)
Definition dashboard_metrics (d : cloudwatch.Dashboard)
  : list cloudwatch.Metric :=
  concat (map cloudwatch.left (concat (cloudwatch.widgets d))).

(** The dimension every metric of the stack is taken on: the identifier of
    the distribution, known only once the distribution exists. *)
Definition on_distribution (m : cloudwatch.Metric) : Prop :=
  cloudwatch.namespace m = "AWS/CloudFront"
  /\ cloudwatch.dimensions_map m
     = [("DistributionId", Attribute "SiteDistribution" "distribution_id")].

(** What the two alarms have in common. *)
Definition five_minutes_twice_strictly_greater (a : cloudwatch.Alarm) : Prop :=
  on_distribution (cloudwatch.metric a)
  /\ cloudwatch.period (cloudwatch.metric a) = Duration_minutes 5
  /\ cloudwatch.evaluation_periods a = 2
  /\ cloudwatch.comparison_operator a = cloudwatch.GREATER_THAN_THRESHOLD.

(** Every dot replaced by a dash, character by character. *)
Fixpoint dots_to_dashes (s : string) : string :=
  match s with
  | EmptyString => EmptyString
  | String c rest =>
      String (if Ascii.eqb c "."%char then "-"%char else c)
             (dots_to_dashes rest)
  end.

Fixpoint has_dot (s : string) : bool :=
  match s with
  | EmptyString => false
  | String c rest => Ascii.eqb c "."%char || has_dot rest
  end.

(** ** References between constructs *)

Definition is_zone_lookup (c : Construct) : bool :=
  match c with HostedZone_from_hosted_zone_attributes _ => true | _ => false end.

Definition is_output (c : Construct) : bool :=
  match c with Output _ => true | _ => false end.

(** A reference held by a construct: the id it names and the kind of
    construct the argument position expects. *)
Definition Reference : Type := (ConstructId * (Construct -> bool))%type.

(** A deferred attribute belongs to the construct it is read from. *)
Definition value_references (kind : Construct -> bool) (v : Value)
  : list Reference :=
  match v with
  | Literal _ => []
  | Attribute c _ => [(c, kind)]
  end.

Definition metric_references (m : cloudwatch.Metric) : list Reference :=
  flat_map (fun kv => value_references is_distribution (snd kv))
           (cloudwatch.dimensions_map m).

(** The constructs of the stack a construct was given as arguments. *)
Definition references (c : Construct) : list Reference :=
  match c with
  | Bucket b =>
      match s3.server_access_logs_bucket b with
      | Some logs => [(logs, is_bucket)]
      | None => []
      end
  | HostedZone_from_hosted_zone_attributes _ => []
  | Certificate_from_certificate_arn _ => []
  | Certificate crt =>
      match acm.validation crt with
      | acm.from_dns z => [(z, is_zone_lookup)]
      | acm.from_email => []
      end
  | Distribution d =>
      match cloudfront.origin (cloudfront.default_behavior d) with
      | cloudfront.S3BucketOrigin_with_origin_access_control b =>
          [(b, is_bucket); (cloudfront.certificate d, is_certificate)]
      end
  | Alarm a => metric_references (cloudwatch.metric a)
  | Dashboard d => flat_map metric_references (dashboard_metrics d)
  | ARecord r | AaaaRecord r =>
      match route53.target r with
      | route53.from_alias (route53.CloudFrontTarget d) =>
          [(route53.zone r, is_zone_lookup); (d, is_distribution)]
      end
  | BucketDeployment d =>
      [(s3deploy.destination_bucket d, is_bucket);
       (s3deploy.distribution d, is_distribution)]
  | Output o => value_references (fun _ => true) (value o)
  end.

(** A reference resolves when a construct of the expected kind was declared
    under its id. *)
Definition resolves_in (earlier : list (ConstructId * Construct))
    (r : Reference) : bool :=
  match lookup (fst r) earlier with
  | Some c => snd r c
  | None => false
  end.

(** Every construct of [l] refers only to constructs declared before it,
    [earlier] being what was declared before [l]. *)
Fixpoint declared_before_use
    (earlier l : list (ConstructId * Construct)) : bool :=
  match l with
  | [] => true
  | (k, c) :: rest =>
      forallb (resolves_in earlier) (references c)
      && declared_before_use (earlier ++ [(k, c)]) rest
  end.

(** The ids of the constructs of a stack that refer to [cid]. *)
Definition referrers (cid : ConstructId) (st : Stack) : list ConstructId :=
  map fst
    (filter (fun kc =>
               existsb (fun r => String.eqb (fst r) cid) (references (snd kc)))
            (children st)).

(** A bucket closed to the public, encrypted at rest and TLS-only. *)
Definition private_encrypted_tls (c : Construct) : Prop :=
  match c with
  | Bucket b =>
      s3.block_public_access b = s3.BLOCK_ALL
      /\ s3.encryption b <> s3.UNENCRYPTED
      /\ s3.enforce_ssl b = true
  | _ => True
  end.

(** The children an argument other than the two guarded ones cannot reach:
    everything but the deployment, the distribution and the dashboard. *)
Definition outside_optional_arguments (c : Construct) : bool :=
  negb (is_deployment c || is_distribution c || is_dashboard c).

(** ** Runs over an arbitrary framework *)

(** Two stacks on which the constructor has done the same: they differ at
    most in what the framework attached on its own. *)
Definition agrees (st st0 : Stack) : Prop :=
  stack_description st = stack_description st0
  /\ children st = children st0
  /\ resource_suppressions st = resource_suppressions st0
  /\ stack_suppressions st = stack_suppressions st0.

(** The declarations of [st] are the first declarations of [st0]. *)
Definition cut_short (st st0 : Stack) : Prop :=
  exists rest, children st0 = (children st ++ rest)%list.

(** How a run over some framework relates to the run over [accepting] from
    an agreeing stack: it returns the same value or raises the same
    [ValueError] on an agreeing stack, or a framework call raised and its
    declarations are cut short. *)
Definition related {A : Type} (r r0 : Stack * Outcome A) : Prop :=
  match snd r, snd r0 with
  | Returned a, Returned a0 => a = a0 /\ agrees (fst r) (fst r0)
  | Raised (ValueError m), Raised (ValueError m0) =>
      m = m0 /\ agrees (fst r) (fst r0)
  | Raised (FrameworkException _), _ => cut_short (fst r) (fst r0)
  | _, _ => False
  end.

Definition simulates {A : Type} (m m0 : Build A) : Prop :=
  (forall st st0, agrees st st0 -> related (m st) (m0 st0))
  /\ (forall st0, cut_short st0 (fst (m0 st0))).

(** A framework for trying the constructor out: it attaches a provider to
    the stack for every bucket with [auto_delete_objects], refuses a
    certificate arn that does not start with arn: and accepts everything
    else. *)
Definition sample_framework : Framework :=
  {| stack_init := fun _ => None;
     build_construct := fun _ _ c =>
       match c with
       | Bucket b =>
           if s3.auto_delete_objects b
           then Constructed ["Custom::S3AutoDeleteObjectsCustomResourceProvider"]
           else Constructed []
       | Certificate_from_certificate_arn arn =>
           if prefix "arn:" arn then Constructed []
           else Failed "ARNs must start with arn:" false []
       | _ => Constructed []
       end;
     suppress := fun _ _ _ => None |}.

(** ** Facts about the Python fragments *)

Lemma truthy_true_inv (o : option string) :
  Py.truthy o = true -> exists c s, o = Some (String c s).
Proof.
  destruct o as [[|c s]|]; simpl; try discriminate.
  intros _. now exists c, s.
Qed.

Lemma truthy_false_inv (o : option string) :
  Py.truthy o = false -> o = None \/ o = Some EmptyString.
Proof.
  destruct o as [[|c s]|]; simpl; try discriminate; auto.
Qed.

Lemma or_truthy (a : option string) (b : string) :
  Py.or_ a b = if Py.truthy a then Py.str a else b.
Proof.
  destruct a as [[|c s]|]; reflexivity.
Qed.

(** For a one-character pattern and replacement, [str.replace] never skips:
    it rewrites the string character by character. *)
Lemma replace_from_dot_dash (s : string) :
  Py.replace_from 0 s "." "-" = dots_to_dashes s.
Proof.
  induction s as [|c rest IH]; [reflexivity|].
  cbn [Py.replace_from dots_to_dashes prefix String.length Nat.sub].
  destruct (ascii_dec "." c) as [<-|Hne].
  - replace (prefix "" rest) with true by (now destruct rest).
    cbn. now rewrite IH.
  - rewrite IH. destruct (Ascii.eqb_spec c "."%char) as [->|_].
    + now contradiction Hne.
    + reflexivity.
Qed.

Lemma replace_dot_dash (s : string) :
  Py.replace s "." "-" = dots_to_dashes s.
Proof.
  unfold Py.replace. apply replace_from_dot_dash.
Qed.

Lemma dots_to_dashes_fixed (s : string) :
  dots_to_dashes s = s <-> has_dot s = false.
Proof.
  induction s as [|c rest IH]; cbn; [tauto|].
  destruct (Ascii.eqb_spec c "."%char) as [->|Hne]; cbn.
  - split; discriminate.
  - rewrite <- IH. split; [now intros [= ->]|now intros ->].
Qed.

(** ** When the constructor returns *)

(** The two guards of the constructor decide the outcome.  The tactic splits
    on the shape of the two guarded arguments and runs the constructor. *)
Ltac run_constructor hz ca :=
  destruct ca as [[|? ?]|]; destruct hz as [[|? ?]|]; vm_compute.

Lemma StaticSiteStack_returns_iff
    (dn dp : string) (hz ca wa db : option string) :
  (exists st, StaticSiteStack dn dp hz ca wa db = (st, Returned tt))
  <-> Py.truthy ca || Py.truthy hz = true.
Proof.
  split.
  - intros [st H]. revert H. run_constructor hz ca;
      intros H; solve [reflexivity | discriminate H].
  - run_constructor hz ca; intros H;
      solve [discriminate H | eexists; reflexivity].
Qed.

(** A run that returned determines its stack and passed one of the guards. *)
Lemma returned_inv
    (dn dp : string) (hz ca wa db : option string) (st : Stack) :
  StaticSiteStack dn dp hz ca wa db = (st, Returned tt) ->
  st = fst (StaticSiteStack dn dp hz ca wa db)
  /\ Py.truthy ca || Py.truthy hz = true.
Proof.
  intros H. split.
  - now rewrite H.
  - apply (proj1 (StaticSiteStack_returns_iff dn dp hz ca wa db)).
    now exists st.
Qed.

(** From a run equation [H], name the stack by its value and leave one goal
    for each shape of the guarded arguments under which the run returns. *)
Ltac on_returned H hz ca :=
  let G := fresh "G" in
  apply returned_inv in H as [-> G];
  destruct ca as [[|? ?]|]; destruct hz as [[|? ?]|];
  try discriminate G; clear G.

(** ** Properties of every stack the constructor returns *)

Section Returned.

Variables (dn dp : string) (hz ca wa db : option string).
Variable st : Stack.
Hypothesis Hrun : StaticSiteStack dn dp hz ca wa db = (st, Returned tt).

(** The three buckets are the only buckets, whatever the arguments. *)
Lemma returned_bucket_ids :
  map fst (entities is_bucket st)
  = ["S3AccessLogsBucket"; "CloudFrontLogsBucket"; "SiteBucket"].
Proof.
  revert Hrun. intros H. on_returned H hz ca; reflexivity.
Qed.

(** No construct id is used twice, so [lookup] finds the only child of
    that id. *)
Lemma returned_ids_distinct : NoDup (map fst (children st)).
Proof.
  revert Hrun. intros H. on_returned H hz ca; vm_compute;
    repeat (constructor; [cbn; intuition discriminate|]); constructor.
Qed.

(** Records are declared exactly when the zone guard passed. *)
Lemma returned_records_iff_zone :
  entities is_dns_record st <> [] <-> Py.truthy hz = true.
Proof.
  revert Hrun. intros H. on_returned H hz ca; vm_compute;
    split; solve [discriminate | reflexivity | congruence].
Qed.

End Returned.

(** ** Runs over an arbitrary framework against the accepted run *)

Lemma agrees_refl st : agrees st st.
Proof. repeat split. Qed.

Lemma cut_short_refl st : cut_short st st.
Proof. exists []. now rewrite app_nil_r. Qed.

Lemma cut_short_trans st1 st2 st3 :
  cut_short st1 st2 -> cut_short st2 st3 -> cut_short st1 st3.
Proof.
  intros [r1 E1] [r2 E2]. exists (r1 ++ r2)%list.
  now rewrite E2, E1, app_assoc.
Qed.

Lemma agrees_cut_short st st0 : agrees st st0 -> cut_short st st0.
Proof.
  intros (_ & E & _). exists []. now rewrite app_nil_r.
Qed.

Lemma cut_short_agrees st st0 st0' :
  agrees st st0 -> cut_short st0 st0' -> cut_short st st0'.
Proof.
  intros (_ & E & _) [r Er]. exists r. now rewrite E.
Qed.

Lemma simulates_ret {A : Type} (a : A) : simulates (ret a) (ret a).
Proof.
  split; [intros st st0 H; cbn; auto | intros st0; apply cut_short_refl].
Qed.

Lemma simulates_raise {A : Type} (m : string) :
  simulates (@raise A (ValueError m)) (raise (ValueError m)).
Proof.
  split; [intros st st0 H; cbn; auto | intros st0; apply cut_short_refl].
Qed.

Lemma simulates_bind {A B : Type} (m m0 : Build A) (k k0 : A -> Build B) :
  simulates m m0 ->
  (forall a, simulates (k a) (k0 a)) ->
  simulates (bind m k) (bind m0 k0).
Proof.
  intros [Hm Hm0] Hk. split.
  - intros st st0 Hst. specialize (Hm st st0 Hst). unfold bind, related in *.
    destruct (m st) as [st' [a|[msg|e]]], (m0 st0) as [st0' [a0|[msg0|e0]]];
      cbn in Hm; try contradiction.
    + destruct Hm as [<- Hag]. apply (proj1 (Hk a)), Hag.
    + destruct Hm as [<- Hag]. cbn. auto.
    + cbn. eapply cut_short_trans; [exact Hm|]. apply (proj2 (Hk a0)).
    + cbn. exact Hm.
    + cbn. exact Hm.
  - intros st0. unfold bind. specialize (Hm0 st0).
    destruct (m0 st0) as [st0' [a0|e0]]; cbn in *; [|exact Hm0].
    eapply cut_short_trans; [exact Hm0|]. apply (proj2 (Hk a0)).
Qed.

Lemma simulates_declare (fw : Framework) (cid : ConstructId) (c : Construct) :
  simulates (declare fw cid c) (declare accepting cid c).
Proof.
  split.
  - intros st st0 (Hd & Hc & Hr & Hs). unfold declare, related. cbn.
    destruct (build_construct fw st cid c) as [att|e [|] att]; cbn.
    + split; [reflexivity|]. repeat split; cbn; congruence.
    + exists []. cbn. now rewrite Hc, app_nil_r.
    + exists [(cid, c)]. cbn. now rewrite Hc, app_nil_r.
  - intros st0. exists [(cid, c)]. reflexivity.
Qed.

Lemma simulates_add_resource_suppressions
    (fw : Framework) (t : ConstructId) (l : list NagPackSuppression) :
  simulates (NagSuppressions.add_resource_suppressions fw t l)
            (NagSuppressions.add_resource_suppressions accepting t l).
Proof.
  split.
  - intros st st0 (Hd & Hc & Hr & Hs).
    unfold NagSuppressions.add_resource_suppressions, related. cbn.
    destruct (suppress fw st (Some t) l) as [e|]; cbn.
    + exists []. now rewrite Hc, app_nil_r.
    + split; [reflexivity|]. repeat split; cbn; congruence.
  - intros st0. exists []. cbn. now rewrite app_nil_r.
Qed.

Lemma simulates_add_stack_suppressions
    (fw : Framework) (l : list NagPackSuppression) :
  simulates (NagSuppressions.add_stack_suppressions fw l)
            (NagSuppressions.add_stack_suppressions accepting l).
Proof.
  split.
  - intros st st0 (Hd & Hc & Hr & Hs).
    unfold NagSuppressions.add_stack_suppressions, related. cbn.
    destruct (suppress fw st None l) as [e|]; cbn.
    + exists []. now rewrite Hc, app_nil_r.
    + split; [reflexivity|]. repeat split; cbn; congruence.
  - intros st0. exists []. cbn. now rewrite app_nil_r.
Qed.

Ltac simulate :=
  repeat first
    [ apply simulates_ret
    | apply simulates_raise
    | apply simulates_declare
    | apply simulates_add_resource_suppressions
    | apply simulates_add_stack_suppressions
    | apply simulates_bind; [|intros ?; cbv beta]
    | match goal with
      | |- simulates (if ?b then _ else _) _ => destruct b
      | |- simulates (match ?o with Some _ => _ | None => _ end) _ =>
          destruct o
      end ].

Lemma body_simulates (fw : Framework) (dn dp : string)
    (hz ca wa db : option string) :
  simulates (StaticSiteStack_body fw dn dp hz ca wa db)
            (StaticSiteStack_body accepting dn dp hz ca wa db).
Proof.
  unfold StaticSiteStack_body. simulate.
Qed.

(** Every run over a framework against the run that is accepted throughout:
    same outcome on an agreeing stack, or cut short by a framework call. *)
Lemma run_on_framework (fw : Framework) (dn dp : string)
    (hz ca wa db : option string) :
  related (StaticSiteStack_on fw dn dp hz ca wa db)
          (StaticSiteStack dn dp hz ca wa db).
Proof.
  unfold StaticSiteStack, StaticSiteStack_on.
  cbn [stack_init accepting].
  destruct (stack_init fw _) as [e|].
  - unfold related. cbn [snd fst]. eexists. reflexivity.
  - apply body_simulates, agrees_refl.
Qed.

Lemma accepted_outcome (dn dp : string) (hz ca wa db : option string) :
  snd (StaticSiteStack dn dp hz ca wa db)
  = if Py.truthy ca || Py.truthy hz
    then Returned tt
    else Raised (ValueError
           "You must provide either certificate_arn or hosted_zone_id so a certificate can be created.").
Proof.
  destruct ca as [[|? ?]|]; destruct hz as [[|? ?]|]; vm_compute; reflexivity.
Qed.

Section OnFramework.

Variable fw : Framework.
Variables (dn dp : string) (hz ca wa db : option string).
Variables (st : Stack) (o : Outcome unit).
Hypothesis Hrun : StaticSiteStack_on fw dn dp hz ca wa db = (st, o).

Lemma on_framework_returned :
  o = Returned tt ->
  Py.truthy ca || Py.truthy hz = true /\ agrees st (fst (StaticSiteStack dn dp hz ca wa db)).
Proof.
  intros ->. pose proof (run_on_framework fw dn dp hz ca wa db) as R.
  rewrite Hrun in R. unfold related in R. cbn [fst snd] in R.
  rewrite accepted_outcome in R.
  destruct (Py.truthy ca || Py.truthy hz); [|contradiction].
  split; [reflexivity|apply R].
Qed.

Lemma on_framework_guard (m : string) :
  o = Raised (ValueError m) ->
  Py.truthy ca || Py.truthy hz = false
  /\ m = "You must provide either certificate_arn or hosted_zone_id so a certificate can be created."
  /\ agrees st (fst (StaticSiteStack dn dp hz ca wa db)).
Proof.
  intros ->. pose proof (run_on_framework fw dn dp hz ca wa db) as R.
  rewrite Hrun in R. unfold related in R. cbn [fst snd] in R.
  rewrite accepted_outcome in R.
  destruct (Py.truthy ca || Py.truthy hz); [contradiction|].
  destruct R as [-> R]. auto.
Qed.

Lemma on_framework_cut_short : cut_short st (fst (StaticSiteStack dn dp hz ca wa db)).
Proof.
  pose proof (run_on_framework fw dn dp hz ca wa db) as R.
  rewrite Hrun in R. unfold related in R. cbn [fst snd] in R.
  destruct o as [[]|[m|e]]; [| |exact R].
  - destruct (snd (StaticSiteStack dn dp hz ca wa db)) as [[]|[m0|e0]]; try contradiction.
    apply agrees_cut_short, R.
  - destruct (snd (StaticSiteStack dn dp hz ca wa db)) as [[]|[m0|e0]]; try contradiction.
    apply agrees_cut_short, R.
Qed.

End OnFramework.

(** A run that returns over some framework has declared what the run
    accepted throughout declares, which returns as well: what is proved of
    the children and suppressions of the stacks [StaticSiteStack] returns
    holds of every returned run. *)
Lemma returned_run_is_accepted_run
    (fw : Framework) (dn dp : string) (hz ca wa db : option string)
    (st : Stack) :
  StaticSiteStack_on fw dn dp hz ca wa db = (st, Returned tt) ->
  exists st0,
    StaticSiteStack dn dp hz ca wa db = (st0, Returned tt)
    /\ agrees st st0.
Proof.
  intros H.
  apply (fun h => on_framework_returned _ _ _ _ _ _ _ _ _ h eq_refl) in H.
  destruct H as [G A].
  exists (fst (StaticSiteStack dn dp hz ca wa db)). split; [|exact A].
  rewrite (surjective_pairing (StaticSiteStack dn dp hz ca wa db)) at 1.
  now rewrite accepted_outcome, G.
Qed.

Lemma agrees_entities (f : Construct -> bool) (st st0 : Stack) :
  agrees st st0 -> entities f st = entities f st0.
Proof.
  intros (_ & E & _). unfold entities. now rewrite E.
Qed.

Lemma cut_short_no_entities (f : Construct -> bool) (st st0 : Stack) :
  cut_short st st0 -> entities f st0 = [] -> entities f st = [].
Proof.
  intros [rest E]. unfold entities. rewrite E, filter_app.
  intros H. now apply app_eq_nil in H.
Qed.

(** Names the stack of a returned run over a framework by the stack of the
    run accepted throughout, and leaves one goal for each shape of the
    guarded arguments under which that run returns. *)
Ltac on_framework_returned_run H hz ca :=
  let G := fresh "G" in
  let A := fresh "A" in
  apply (fun h => on_framework_returned _ _ _ _ _ _ _ _ _ h eq_refl) in H
    as [G A];
  destruct ca as [[|? ?]|]; destruct hz as [[|? ?]|];
  try discriminate G; clear G.

(** Over the sample framework an arn that does not start with arn: is
    refused when the certificate is imported: the run is cut short after the
    three buckets and raises neither the ValueError nor returns. *)
Example sample_framework_refuses_malformed_arn :
  let r := StaticSiteStack_on sample_framework "example.com" "dist" None
             (Some "arn") None None in
  snd r = Raised (FrameworkException "ARNs must start with arn:")
  /\ map fst (children (fst r))
     = ["S3AccessLogsBucket"; "CloudFrontLogsBucket"; "SiteBucket"].
Proof.
  split; vm_compute; reflexivity.
Qed.

(** C4.  Whenever the constructor returns, the content bucket ("SiteBucket")
    is declared with all public access blocked, S3-managed server-side
    encryption and TLS-only access; none of the six arguments has any
    influence on these three settings. *)
Theorem site_bucket_security_posture
    (dn dp : string) (hz ca wa db : option string) (st : Stack) :
  StaticSiteStack dn dp hz ca wa db = (st, Returned tt) ->
  exists b,
    lookup "SiteBucket" (children st) = Some (Bucket b)
    /\ s3.block_public_access b = s3.BLOCK_ALL
    /\ s3.encryption b = s3.S3_MANAGED
    /\ s3.enforce_ssl b = true.
Proof.
  intros H. on_returned H hz ca;
    (eexists; split; [vm_compute; reflexivity|]; cbn; auto).
Qed.

Lemma site_bucket_security_posture_witness :
  exists b,
    lookup "SiteBucket"
      (children (fst (StaticSiteStack "example.com" "dist" None
         (Some "arn:aws:acm:us-east-1:123456789012:certificate/test-cert")
         (Some "acl") (Some "MyCustomDashboard"))))
    = Some (Bucket b)
    /\ s3.block_public_access b = s3.BLOCK_ALL
    /\ s3.encryption b = s3.S3_MANAGED
    /\ s3.enforce_ssl b = true.
Proof.
  apply (site_bucket_security_posture "example.com" "dist" None
           (Some "arn:aws:acm:us-east-1:123456789012:certificate/test-cert")
           (Some "acl") (Some "MyCustomDashboard")).
  vm_compute; reflexivity.
Defined.

(** C9.  Whenever the constructor returns, both log buckets
    ("S3AccessLogsBucket" for the origin-access logs, "CloudFrontLogsBucket"
    for the edge-access logs) carry one lifecycle rule that expires objects
    after 180 days, removal policy RETAIN and no automatic object deletion,
    while the content bucket has removal policy DESTROY with automatic
    object deletion. *)
Theorem log_buckets_retained_site_bucket_destroyed
    (dn dp : string) (hz ca wa db : option string) (st : Stack) :
  StaticSiteStack dn dp hz ca wa db = (st, Returned tt) ->
  exists origin_logs edge_logs content,
    lookup "S3AccessLogsBucket" (children st) = Some (Bucket origin_logs)
    /\ lookup "CloudFrontLogsBucket" (children st) = Some (Bucket edge_logs)
    /\ lookup "SiteBucket" (children st) = Some (Bucket content)
    /\ (forall b, b = origin_logs \/ b = edge_logs ->
          map s3.expiration (s3.lifecycle_rules b)
            = [Some (Duration_days 180)]
          /\ s3.removal_policy b = RETAIN
          /\ s3.auto_delete_objects b = false)
    /\ s3.removal_policy content = DESTROY
    /\ s3.auto_delete_objects content = true.
Proof.
  intros H. on_returned H hz ca;
    (do 3 eexists;
     repeat (split; [vm_compute; reflexivity|]);
     split; [|split; reflexivity];
     intros b [-> | ->]; repeat split).
Qed.

Lemma log_buckets_retained_site_bucket_destroyed_witness :
  exists origin_logs edge_logs content,
    let st := fst (StaticSiteStack "example.com" "dist" (Some "Z1234567890")
                     None None None) in
    lookup "S3AccessLogsBucket" (children st) = Some (Bucket origin_logs)
    /\ lookup "CloudFrontLogsBucket" (children st) = Some (Bucket edge_logs)
    /\ lookup "SiteBucket" (children st) = Some (Bucket content)
    /\ (forall b, b = origin_logs \/ b = edge_logs ->
          map s3.expiration (s3.lifecycle_rules b)
            = [Some (Duration_days 180)]
          /\ s3.removal_policy b = RETAIN
          /\ s3.auto_delete_objects b = false)
    /\ s3.removal_policy content = DESTROY
    /\ s3.auto_delete_objects content = true.
Proof.
  apply (log_buckets_retained_site_bucket_destroyed
           "example.com" "dist" (Some "Z1234567890") None None None).
  vm_compute; reflexivity.
Defined.

(** C6, as the code has it.  Whenever the constructor returns, over any
    framework, the distribution's default behaviour has viewer protocol
    policy REDIRECT_TO_HTTPS, which is not the HTTPS_ONLY policy, and the
    SECURITY_HEADERS response headers policy; its alternate domain names are
    the domain name and its www variant; and its certificate is the one
    certificate of the stack: the import of [certificate_arn] when that is
    non-empty, otherwise the certificate synthesized for the domain name and
    validated in the zone. *)
Theorem distribution_https_headers_names_certificate
    (fw : Framework) (dn dp : string) (hz ca wa db : option string)
    (st : Stack) :
  StaticSiteStack_on fw dn dp hz ca wa db = (st, Returned tt) ->
  exists d,
    lookup "SiteDistribution" (children st) = Some (Distribution d)
    /\ cloudfront.viewer_protocol_policy (cloudfront.default_behavior d)
       = cloudfront.REDIRECT_TO_HTTPS
    /\ cloudfront.response_headers_policy (cloudfront.default_behavior d)
       = cloudfront.SECURITY_HEADERS
    /\ cloudfront.domain_names d = [dn; "www." ++ dn]
    /\ (forall arn, ca = Some arn -> Py.truthy ca = true ->
          cloudfront.certificate d = "Cert"
          /\ entities is_certificate st
             = [("Cert", Certificate_from_certificate_arn arn)])
    /\ (Py.truthy ca = false ->
          cloudfront.certificate d = "SiteCertificate"
          /\ entities is_certificate st
             = [("SiteCertificate",
                 Certificate
                   {| acm.domain_name := dn;
                      acm.subject_alternative_names := ["www." ++ dn];
                      acm.validation := acm.from_dns "Zone" |})]).
Proof.
  intros H. on_framework_returned_run H hz ca;
    rewrite (agrees_entities _ _ _ A);
    destruct A as (_ & -> & _);
    (eexists; split; [vm_compute; reflexivity|];
     do 3 (split; [reflexivity|]);
     split;
     [ intros arn [= <-] T; first [discriminate T | split; reflexivity]
     | intros T; first [discriminate T | split; reflexivity] ]).
Qed.

Lemma distribution_https_headers_names_certificate_witness :
  exists d,
    let st := fst (StaticSiteStack_on sample_framework "example.com" "dist"
                     None
                     (Some "arn:aws:acm:us-east-1:123456789012:certificate/test-cert")
                     None None) in
    lookup "SiteDistribution" (children st) = Some (Distribution d)
    /\ cloudfront.viewer_protocol_policy (cloudfront.default_behavior d)
       = cloudfront.REDIRECT_TO_HTTPS
    /\ cloudfront.response_headers_policy (cloudfront.default_behavior d)
       = cloudfront.SECURITY_HEADERS
    /\ cloudfront.domain_names d = ["example.com"; "www." ++ "example.com"]
    /\ (forall arn,
          Some "arn:aws:acm:us-east-1:123456789012:certificate/test-cert"
            = Some arn ->
          Py.truthy
            (Some "arn:aws:acm:us-east-1:123456789012:certificate/test-cert")
            = true ->
          cloudfront.certificate d = "Cert"
          /\ entities is_certificate st
             = [("Cert", Certificate_from_certificate_arn arn)])
    /\ (Py.truthy
          (Some "arn:aws:acm:us-east-1:123456789012:certificate/test-cert")
          = false ->
          cloudfront.certificate d = "SiteCertificate"
          /\ entities is_certificate st
             = [("SiteCertificate",
                 Certificate
                   {| acm.domain_name := "example.com";
                      acm.subject_alternative_names :=
                        ["www." ++ "example.com"];
                      acm.validation := acm.from_dns "Zone" |})]).
Proof.
  apply (distribution_https_headers_names_certificate sample_framework
           "example.com" "dist" None
           (Some "arn:aws:acm:us-east-1:123456789012:certificate/test-cert")
           None None).
  vm_compute; reflexivity.
Defined.

(** C6 as stated fails: on the call of [test_synth_with_certificate_arn]
    the viewer protocol policy of the distribution is REDIRECT_TO_HTTPS,
    not HTTPS_ONLY. *)
Lemma viewer_policy_redirects_rather_than_https_only :
  exists st d,
    StaticSiteStack "example.com" "dist" None
      (Some "arn:aws:acm:us-east-1:123456789012:certificate/test-cert")
      None None
    = (st, Returned tt)
    /\ lookup "SiteDistribution" (children st) = Some (Distribution d)
    /\ cloudfront.viewer_protocol_policy (cloudfront.default_behavior d)
       = cloudfront.REDIRECT_TO_HTTPS
    /\ cloudfront.viewer_protocol_policy (cloudfront.default_behavior d)
       <> cloudfront.HTTPS_ONLY.
Proof.
  do 2 eexists. split; [vm_compute; reflexivity|].
  split; [vm_compute; reflexivity|]. split; [reflexivity|discriminate].
Qed.

(** C7.  Whenever the constructor returns, the distribution's [web_acl_id]
    is the [web_acl_id] argument: the supplied reference when one is
    supplied, none when none is. *)
Theorem distribution_carries_web_acl
    (dn dp : string) (hz ca wa db : option string) (st : Stack) :
  StaticSiteStack dn dp hz ca wa db = (st, Returned tt) ->
  exists d,
    lookup "SiteDistribution" (children st) = Some (Distribution d)
    /\ (forall acl, wa = Some acl -> cloudfront.web_acl_id d = Some acl)
    /\ (wa = None -> cloudfront.web_acl_id d = None).
Proof.
  intros H. on_returned H hz ca;
    (eexists; split; [vm_compute; reflexivity|];
     split; [intros acl ->|intros ->]; reflexivity).
Qed.

Lemma distribution_carries_web_acl_witness :
  exists d,
    lookup "SiteDistribution"
      (children (fst (StaticSiteStack "example.com" "dist" None
         (Some "arn:aws:acm:us-east-1:123456789012:certificate/test-cert")
         (Some "arn:aws:wafv2:us-east-1:123456789012:global/webacl/test/abc123")
         None)))
    = Some (Distribution d)
    /\ (forall acl,
          Some "arn:aws:wafv2:us-east-1:123456789012:global/webacl/test/abc123"
            = Some acl ->
          cloudfront.web_acl_id d = Some acl)
    /\ (Some "arn:aws:wafv2:us-east-1:123456789012:global/webacl/test/abc123"
          = None ->
        cloudfront.web_acl_id d = None).
Proof.
  apply (distribution_carries_web_acl "example.com" "dist" None
           (Some "arn:aws:acm:us-east-1:123456789012:certificate/test-cert")
           (Some "arn:aws:wafv2:us-east-1:123456789012:global/webacl/test/abc123")
           None).
  vm_compute; reflexivity.
Defined.

(** C10.  Whenever the constructor returns, the distribution has exactly two
    error responses, for status 403 and for status 404, each answering with
    status 200 and the page /index.html with a time-to-live of five minutes
    (300 seconds), and its default root object is index.html. *)
Theorem distribution_error_responses
    (dn dp : string) (hz ca wa db : option string) (st : Stack) :
  StaticSiteStack dn dp hz ca wa db = (st, Returned tt) ->
  exists d,
    lookup "SiteDistribution" (children st) = Some (Distribution d)
    /\ map cloudfront.http_status (cloudfront.error_responses d) = [403; 404]
    /\ (forall r, In r (cloudfront.error_responses d) ->
          cloudfront.response_http_status r = 200
          /\ cloudfront.response_page_path r = "/index.html"
          /\ cloudfront.ttl r = Duration_minutes 5
          /\ to_seconds (cloudfront.ttl r) = 300)
    /\ cloudfront.default_root_object d = "index.html".
Proof.
  intros H. on_returned H hz ca;
    (eexists; split; [vm_compute; reflexivity|];
     split; [reflexivity|]; split; [|reflexivity];
     intros r [<- | [<- | []]]; repeat split).
Qed.

Lemma distribution_error_responses_witness :
  exists d,
    lookup "SiteDistribution"
      (children (fst (StaticSiteStack "example.com" "dist" None
         (Some "arn:aws:acm:us-east-1:123456789012:certificate/test-cert")
         None None)))
    = Some (Distribution d)
    /\ map cloudfront.http_status (cloudfront.error_responses d) = [403; 404]
    /\ (forall r, In r (cloudfront.error_responses d) ->
          cloudfront.response_http_status r = 200
          /\ cloudfront.response_page_path r = "/index.html"
          /\ cloudfront.ttl r = Duration_minutes 5
          /\ to_seconds (cloudfront.ttl r) = 300)
    /\ cloudfront.default_root_object d = "index.html".
Proof.
  apply (distribution_error_responses "example.com" "dist" None
           (Some "arn:aws:acm:us-east-1:123456789012:certificate/test-cert")
           None None).
  vm_compute; reflexivity.
Defined.

(** C8.  Whenever the constructor returns, the stack has exactly two alarms,
    both on metrics of the distribution: one on 5xxErrorRate with threshold
    5 and one on 4xxErrorRate with threshold 10, each with a five-minute
    period, two evaluation periods and the strictly-greater-than comparison;
    and exactly one dashboard, which plots the two error rates and the
    request count of the distribution. *)
Theorem two_alarms_one_dashboard
    (dn dp : string) (hz ca wa db : option string) (st : Stack) :
  StaticSiteStack dn dp hz ca wa db = (st, Returned tt) ->
  exists a5 a4 d,
    entities is_alarm st
      = [("High5xxErrorRate", Alarm a5); ("High4xxErrorRate", Alarm a4)]
    /\ cloudwatch.metric_name (cloudwatch.metric a5) = "5xxErrorRate"
    /\ cloudwatch.threshold a5 = 5
    /\ five_minutes_twice_strictly_greater a5
    /\ cloudwatch.metric_name (cloudwatch.metric a4) = "4xxErrorRate"
    /\ cloudwatch.threshold a4 = 10
    /\ five_minutes_twice_strictly_greater a4
    /\ entities is_dashboard st = [("SiteDashboard", Dashboard d)]
    /\ cloudwatch.dashboard_name d = resolved_dashboard_name dn db
    /\ map cloudwatch.metric_name (dashboard_metrics d)
       = ["5xxErrorRate"; "4xxErrorRate"; "Requests"]
    /\ Forall on_distribution (dashboard_metrics d).
Proof.
  intros H. on_returned H hz ca;
    (do 3 eexists; split; [vm_compute; reflexivity|];
     repeat lazymatch goal with
       | |- Forall _ _ => repeat constructor
       | |- _ /\ _ => split
       | |- five_minutes_twice_strictly_greater _ => repeat split
       | |- _ = _ => reflexivity
       end).
Qed.

Lemma two_alarms_one_dashboard_witness :
  exists a5 a4 d,
    let st := fst (StaticSiteStack "example.com" "dist" None
                (Some "arn:aws:acm:us-east-1:123456789012:certificate/test-cert")
                None None) in
    entities is_alarm st
      = [("High5xxErrorRate", Alarm a5); ("High4xxErrorRate", Alarm a4)]
    /\ cloudwatch.metric_name (cloudwatch.metric a5) = "5xxErrorRate"
    /\ cloudwatch.threshold a5 = 5
    /\ five_minutes_twice_strictly_greater a5
    /\ cloudwatch.metric_name (cloudwatch.metric a4) = "4xxErrorRate"
    /\ cloudwatch.threshold a4 = 10
    /\ five_minutes_twice_strictly_greater a4
    /\ entities is_dashboard st = [("SiteDashboard", Dashboard d)]
    /\ cloudwatch.dashboard_name d = resolved_dashboard_name "example.com" None
    /\ map cloudwatch.metric_name (dashboard_metrics d)
       = ["5xxErrorRate"; "4xxErrorRate"; "Requests"]
    /\ Forall on_distribution (dashboard_metrics d).
Proof.
  apply (two_alarms_one_dashboard "example.com" "dist" None
           (Some "arn:aws:acm:us-east-1:123456789012:certificate/test-cert")
           None None).
  vm_compute; reflexivity.
Defined.

(** ** The guard on certificate resolution *)

(** C1, as the code has it.  When neither [certificate_arn] nor
    [hosted_zone_id] is given (absent, or empty), the constructor fails over
    every framework.  Unless a framework call raised first, it raises the
    ValueError of line 121, and at that point the constructor has declared
    the three buckets and nothing else: no zone lookup, certificate,
    distribution, alarm, dashboard, record, deployment, output or
    suppression.  What the framework attached on its own for the buckets is
    on the stack as well.  When a framework call raised first, the
    constructor had declared some of the three buckets only. *)
Theorem raises_after_the_three_buckets
    (fw : Framework) (dn dp : string) (hz ca wa db : option string)
    (st : Stack) (o : Outcome unit) :
  Py.truthy ca = false ->
  Py.truthy hz = false ->
  StaticSiteStack_on fw dn dp hz ca wa db = (st, o) ->
  (o = Raised (ValueError
         "You must provide either certificate_arn or hosted_zone_id so a certificate can be created.")
   /\ map fst (children st)
      = ["S3AccessLogsBucket"; "CloudFrontLogsBucket"; "SiteBucket"]
   /\ Forall (fun kc => is_bucket (snd kc) = true) (children st)
   /\ resource_suppressions st = []
   /\ stack_suppressions st = [])
  \/ (exists e rest,
        o = Raised (FrameworkException e)
        /\ ["S3AccessLogsBucket"; "CloudFrontLogsBucket"; "SiteBucket"]
           = (map fst (children st) ++ rest)%list
        /\ Forall (fun kc => is_bucket (snd kc) = true) (children st)).
Proof.
  intros Hca Hhz H.
  assert (G : Py.truthy ca || Py.truthy hz = false) by now rewrite Hca, Hhz.
  destruct o as [[]|[m|e]].
  - apply (fun h => on_framework_returned _ _ _ _ _ _ _ _ _ h eq_refl) in H.
    destruct H as [T _]. congruence.
  - left.
    apply (fun h => on_framework_guard _ _ _ _ _ _ _ _ _ h m eq_refl) in H.
    destruct H as (_ & -> & _ & -> & -> & ->).
    apply truthy_false_inv in Hca as [-> | ->];
      apply truthy_false_inv in Hhz as [-> | ->];
      (split; [reflexivity|]; repeat split; repeat constructor).
  - right. exists e.
    apply on_framework_cut_short in H as [rest E].
    exists (map fst rest). split; [reflexivity|].
    assert (E' : children (fst (StaticSiteStack dn dp hz ca wa db))
                 = (children st ++ rest)%list) by exact E.
    clear E. revert E'.
    apply truthy_false_inv in Hca as [-> | ->];
      apply truthy_false_inv in Hhz as [-> | ->];
      (intros E; rewrite <- map_app, <- E; split; [reflexivity|];
       assert (F : Forall (fun kc => is_bucket (snd kc) = true)
                          (children st ++ rest)%list)
         by (rewrite <- E; repeat constructor);
       apply Forall_app in F; apply F).
Qed.

Lemma raises_after_the_three_buckets_witness :
  let r := StaticSiteStack_on sample_framework
             "example.com" "dist" None None None None in
  ((snd r = Raised (ValueError
         "You must provide either certificate_arn or hosted_zone_id so a certificate can be created.")
    /\ map fst (children (fst r))
       = ["S3AccessLogsBucket"; "CloudFrontLogsBucket"; "SiteBucket"]
    /\ Forall (fun kc => is_bucket (snd kc) = true) (children (fst r))
    /\ resource_suppressions (fst r) = []
    /\ stack_suppressions (fst r) = [])
   \/ (exists e rest,
         snd r = Raised (FrameworkException e)
         /\ ["S3AccessLogsBucket"; "CloudFrontLogsBucket"; "SiteBucket"]
            = (map fst (children (fst r)) ++ rest)%list
         /\ Forall (fun kc => is_bucket (snd kc) = true) (children (fst r))))
  /\ framework_children (fst r)
     = ["Custom::S3AutoDeleteObjectsCustomResourceProvider"].
Proof.
  split.
  - apply (raises_after_the_three_buckets sample_framework
             "example.com" "dist" None None None None);
      reflexivity.
  - reflexivity.
Defined.

(** C1 as stated fails: on the call of [test_raises_without_cert_or_zone]
    the constructor raises, and the stack it leaves behind has three bucket
    entities. *)
Lemma raise_leaves_buckets_behind :
  let r := StaticSiteStack "example.com" "dist" None None None None in
  (exists e, snd r = Raised e)
  /\ map fst (entities is_bucket (fst r))
     = ["S3AccessLogsBucket"; "CloudFrontLogsBucket"; "SiteBucket"]
  /\ entities is_bucket (fst r) <> [].
Proof.
  cbv zeta. split; [eexists; vm_compute; reflexivity|].
  split; [vm_compute; reflexivity|].
  vm_compute. discriminate.
Qed.

(** C2, as the code has it.  With a non-empty [hosted_zone_id] and no
    [certificate_arn] (absent, or empty) the constructor never raises its
    ValueError: over every framework it returns unless a framework call
    raises.  Whenever it returns, the stack looks the zone up by the given
    id; its only certificate is synthesized for the domain name with the www
    name as alternative name and DNS validation in that zone; and the DNS
    records the constructor declares are exactly four alias records in that
    zone, A and AAAA for the apex and A and AAAA for www, all targeting the
    distribution. *)
Theorem zone_only_synthesizes_certificate_and_four_records
    (fw : Framework) (dn dp zone_id : string) (ca wa db : option string)
    (st : Stack) (o : Outcome unit) :
  Py.truthy (Some zone_id) = true ->
  Py.truthy ca = false ->
  StaticSiteStack_on fw dn dp (Some zone_id) ca wa db = (st, o) ->
  (o = Returned tt \/ exists e, o = Raised (FrameworkException e))
  /\ (o = Returned tt ->
      exists d,
        entities is_zone_lookup st
        = [("Zone", HostedZone_from_hosted_zone_attributes
                      {| route53.hosted_zone_id := zone_id;
                         route53.zone_name := dn |})]
        /\ entities is_certificate st
           = [("SiteCertificate",
               Certificate {| acm.domain_name := dn;
                              acm.subject_alternative_names := ["www." ++ dn];
                              acm.validation := acm.from_dns "Zone" |})]
        /\ lookup "SiteDistribution" (children st) = Some (Distribution d)
        /\ let alias_to_distribution :=
             route53.from_alias (route53.CloudFrontTarget "SiteDistribution")
           in
           entities is_dns_record st
           = [("ApexAlias",
               ARecord {| route53.zone := "Zone";
                          route53.record_name := None;
                          route53.target := alias_to_distribution |});
              ("ApexAliasIPv6",
               AaaaRecord {| route53.zone := "Zone";
                             route53.record_name := None;
                             route53.target := alias_to_distribution |});
              ("WwwAlias",
               ARecord {| route53.zone := "Zone";
                          route53.record_name := Some "www";
                          route53.target := alias_to_distribution |});
              ("WwwAliasIPv6",
               AaaaRecord {| route53.zone := "Zone";
                             route53.record_name := Some "www";
                             route53.target := alias_to_distribution |})]).
Proof.
  intros Hz Hca H. split.
  - destruct o as [[]|[m|e]]; [now left| |right; now exists e].
    apply (fun h => on_framework_guard _ _ _ _ _ _ _ _ _ h m eq_refl) in H.
    destruct H as (G & _). rewrite Hz, orb_true_r in G. discriminate G.
  - intros ->.
    apply (fun h => on_framework_returned _ _ _ _ _ _ _ _ _ h eq_refl) in H.
    destruct H as [_ A]. rewrite !(agrees_entities _ _ _ A).
    destruct A as (_ & -> & _).
    destruct zone_id as [|c z]; [discriminate Hz|].
    apply truthy_false_inv in Hca as [-> | ->];
      (eexists; repeat split; vm_compute; reflexivity).
Qed.

Lemma zone_only_synthesizes_certificate_and_four_records_witness :
  let r := StaticSiteStack_on sample_framework "example.com" "dist"
             (Some "Z1234567890") None None None in
  ((snd r = Returned tt \/ exists e, snd r = Raised (FrameworkException e))
  /\ (snd r = Returned tt ->
      exists d,
        entities is_zone_lookup (fst r)
        = [("Zone", HostedZone_from_hosted_zone_attributes
                      {| route53.hosted_zone_id := "Z1234567890";
                         route53.zone_name := "example.com" |})]
        /\ entities is_certificate (fst r)
           = [("SiteCertificate",
               Certificate {| acm.domain_name := "example.com";
                              acm.subject_alternative_names :=
                                ["www." ++ "example.com"];
                              acm.validation := acm.from_dns "Zone" |})]
        /\ lookup "SiteDistribution" (children (fst r))
           = Some (Distribution d)
        /\ let alias_to_distribution :=
             route53.from_alias (route53.CloudFrontTarget "SiteDistribution")
           in
           entities is_dns_record (fst r)
           = [("ApexAlias",
               ARecord {| route53.zone := "Zone";
                          route53.record_name := None;
                          route53.target := alias_to_distribution |});
              ("ApexAliasIPv6",
               AaaaRecord {| route53.zone := "Zone";
                             route53.record_name := None;
                             route53.target := alias_to_distribution |});
              ("WwwAlias",
               ARecord {| route53.zone := "Zone";
                          route53.record_name := Some "www";
                          route53.target := alias_to_distribution |});
              ("WwwAliasIPv6",
               AaaaRecord {| route53.zone := "Zone";
                             route53.record_name := Some "www";
                             route53.target := alias_to_distribution |})]))
  /\ snd r = Returned tt.
Proof.
  split.
  - apply (zone_only_synthesizes_certificate_and_four_records
             sample_framework
             "example.com" "dist" "Z1234567890" None None None);
      reflexivity.
  - reflexivity.
Defined.

(** C2 as stated fails: an empty [hosted_zone_id] is supplied, no
    [certificate_arn] is, and the constructor raises. *)
Lemma empty_zone_id_raises :
  (exists e,
     snd (StaticSiteStack "example.com" "dist" (Some "") None None None)
     = Raised e)
  /\ ~ (exists st,
          StaticSiteStack "example.com" "dist" (Some "") None None None
          = (st, Returned tt)).
Proof.
  split.
  - eexists. vm_compute. reflexivity.
  - intros [st H]. apply (f_equal snd) in H. vm_compute in H. discriminate H.
Qed.

(** C5, as the code has it.  With a non-empty [certificate_arn] and no
    [hosted_zone_id] (absent, or empty) the constructor never raises its
    ValueError: over every framework it returns unless a framework call
    raises.  Whether it returns or is cut short by the framework, it
    declares no DNS record and no zone lookup. *)
Theorem certificate_only_declares_no_records
    (fw : Framework) (dn dp arn : string) (hz wa db : option string)
    (st : Stack) (o : Outcome unit) :
  Py.truthy (Some arn) = true ->
  Py.truthy hz = false ->
  StaticSiteStack_on fw dn dp hz (Some arn) wa db = (st, o) ->
  (o = Returned tt \/ exists e, o = Raised (FrameworkException e))
  /\ entities is_dns_record st = []
  /\ entities is_zone_lookup st = [].
Proof.
  intros Harn Hhz H. split.
  - destruct o as [[]|[m|e]]; [now left| |right; now exists e].
    apply (fun h => on_framework_guard _ _ _ _ _ _ _ _ _ h m eq_refl) in H.
    destruct H as (G & _). rewrite Harn in G. discriminate G.
  - apply on_framework_cut_short in H.
    destruct arn as [|c arn]; [discriminate Harn|].
    split; apply (cut_short_no_entities _ _ _ H);
      apply truthy_false_inv in Hhz as [-> | ->]; vm_compute; reflexivity.
Qed.

Lemma certificate_only_declares_no_records_witness :
  let r := StaticSiteStack_on sample_framework "example.com" "dist" None
             (Some "arn:aws:acm:us-east-1:123456789012:certificate/test-cert")
             None None in
  ((snd r = Returned tt \/ exists e, snd r = Raised (FrameworkException e))
   /\ entities is_dns_record (fst r) = []
   /\ entities is_zone_lookup (fst r) = [])
  /\ snd r = Returned tt.
Proof.
  split.
  - apply (certificate_only_declares_no_records sample_framework
             "example.com" "dist"
             "arn:aws:acm:us-east-1:123456789012:certificate/test-cert"
             None None None);
      reflexivity.
  - reflexivity.
Defined.

(** C5 as stated fails: an empty [certificate_arn] is supplied, no
    [hosted_zone_id] is, and the constructor raises. *)
Lemma empty_certificate_arn_raises :
  (exists e,
     snd (StaticSiteStack "example.com" "dist" None (Some "") None None)
     = Raised e)
  /\ ~ (exists st,
          StaticSiteStack "example.com" "dist" None (Some "") None None
          = (st, Returned tt)).
Proof.
  split.
  - eexists. vm_compute. reflexivity.
  - intros [st H]. apply (f_equal snd) in H. vm_compute in H. discriminate H.
Qed.

(** ** The dashboard name *)

(** C3, as the code has it.  The resolved dashboard name is the dashboard
    name when one is given and not empty, the domain name otherwise, in
    both cases with every dot replaced by a dash.  A given name is therefore
    kept unchanged exactly when it is non-empty and has no dot. *)
Theorem resolved_dashboard_name_replaces_dots
    (dn : string) (db : option string) :
  resolved_dashboard_name dn db
    = dots_to_dashes (if Py.truthy db then Py.str db else dn)
  /\ (Py.truthy db = true ->
      (resolved_dashboard_name dn db = Py.str db
       <-> has_dot (Py.str db) = false)).
Proof.
  assert (E : resolved_dashboard_name dn db
              = dots_to_dashes (if Py.truthy db then Py.str db else dn)).
  { unfold resolved_dashboard_name.
    now rewrite replace_dot_dash, or_truthy. }
  split; [exact E|]. intros T. rewrite E, T.
  apply dots_to_dashes_fixed.
Qed.

(** C3 as stated fails: a supplied dashboard name with a dot is not used
    verbatim, neither by the resolution nor by the dashboard of the stack. *)
Lemma dotted_dashboard_name_not_verbatim :
  resolved_dashboard_name "example.com" (Some "my.dash") = "my-dash"
  /\ resolved_dashboard_name "example.com" (Some "my.dash") <> "my.dash"
  /\ exists st d,
       StaticSiteStack "example.com" "dist" None (Some "arn") None
         (Some "my.dash") = (st, Returned tt)
       /\ lookup "SiteDashboard" (children st) = Some (Dashboard d)
       /\ cloudwatch.dashboard_name d = "my-dash".
Proof.
  split; [reflexivity|]. split; [vm_compute; discriminate|].
  do 2 eexists. split; [vm_compute; reflexivity|].
  split; vm_compute; reflexivity.
Qed.

(** ** Beyond the guard: the whole constructor *)

(** Splits a statement about [StaticSiteStack] on the shapes of the two
    guarded arguments: empty, non-empty, absent. *)
Ltac every_run hz ca :=
  destruct ca as [[|? ?]|]; destruct hz as [[|? ?]|].

(** X1.  Over every framework, the constructor can return only when
    [certificate_arn] or [hosted_zone_id] is a non-empty string, and it
    raises a ValueError, the one of line 121, only when neither is; every
    other failure is an exception raised by a framework call.  Over the
    framework that accepts every call the outcome is decided by the two
    guards alone. *)
Theorem outcome_decided_by_the_two_guards
    (fw : Framework) (dn dp : string) (hz ca wa db : option string) :
  let o := snd (StaticSiteStack_on fw dn dp hz ca wa db) in
  (o = Returned tt -> Py.truthy ca || Py.truthy hz = true)
  /\ (forall m, o = Raised (ValueError m) ->
        Py.truthy ca || Py.truthy hz = false
        /\ m = "You must provide either certificate_arn or hosted_zone_id so a certificate can be created.")
  /\ snd (StaticSiteStack_on accepting dn dp hz ca wa db)
     = if Py.truthy ca || Py.truthy hz
       then Returned tt
       else Raised (ValueError
              "You must provide either certificate_arn or hosted_zone_id so a certificate can be created.").
Proof.
  cbv zeta.
  destruct (StaticSiteStack_on fw dn dp hz ca wa db) as [st o] eqn:H.
  cbn [snd]. split; [|split].
  - intros ->.
    now apply (fun h => on_framework_returned _ _ _ _ _ _ _ _ _ h eq_refl)
      in H.
  - intros m ->.
    apply (fun h => on_framework_guard _ _ _ _ _ _ _ _ _ h m eq_refl) in H.
    destruct H as (G & E & _). now split.
  - apply accepted_outcome.
Qed.

(** X2.  When both [certificate_arn] and [hosted_zone_id] are non-empty, the
    certificate reference wins: on every returned run, over any framework,
    the only certificate of the stack is the one imported from the given
    arn and none is synthesized, while the zone is still looked up by the
    given id and the four alias records are still declared in it. *)
Theorem certificate_arn_takes_precedence_over_zone
    (fw : Framework) (dn dp arn zone_id : string) (wa db : option string)
    (st : Stack) :
  Py.truthy (Some arn) = true ->
  Py.truthy (Some zone_id) = true ->
  StaticSiteStack_on fw dn dp (Some zone_id) (Some arn) wa db
    = (st, Returned tt) ->
  entities is_certificate st
    = [("Cert", Certificate_from_certificate_arn arn)]
  /\ lookup "SiteCertificate" (children st) = None
  /\ entities is_zone_lookup st
     = [("Zone", HostedZone_from_hosted_zone_attributes
                   {| route53.hosted_zone_id := zone_id;
                      route53.zone_name := dn |})]
  /\ map fst (entities is_dns_record st)
     = ["ApexAlias"; "ApexAliasIPv6"; "WwwAlias"; "WwwAliasIPv6"]
  /\ Forall (fun kc => map fst (references (snd kc))
                       = ["Zone"; "SiteDistribution"])
            (entities is_dns_record st).
Proof.
  intros Harn Hz H.
  apply (fun h => on_framework_returned _ _ _ _ _ _ _ _ _ h eq_refl) in H.
  destruct H as [_ A]. rewrite !(agrees_entities _ _ _ A).
  destruct A as (_ & -> & _).
  destruct arn as [|c arn]; [discriminate Harn|].
  destruct zone_id as [|c' z]; [discriminate Hz|].
  repeat split; try (vm_compute; reflexivity).
  repeat constructor.
Qed.

Lemma certificate_arn_takes_precedence_over_zone_witness :
  let st := fst (StaticSiteStack_on sample_framework "example.com" "dist"
              (Some "Z1234567890")
              (Some "arn:aws:acm:us-east-1:123456789012:certificate/test-cert")
              None None) in
  entities is_certificate st
    = [("Cert", Certificate_from_certificate_arn
          "arn:aws:acm:us-east-1:123456789012:certificate/test-cert")]
  /\ lookup "SiteCertificate" (children st) = None
  /\ entities is_zone_lookup st
     = [("Zone", HostedZone_from_hosted_zone_attributes
                   {| route53.hosted_zone_id := "Z1234567890";
                      route53.zone_name := "example.com" |})]
  /\ map fst (entities is_dns_record st)
     = ["ApexAlias"; "ApexAliasIPv6"; "WwwAlias"; "WwwAliasIPv6"]
  /\ Forall (fun kc => map fst (references (snd kc))
                       = ["Zone"; "SiteDistribution"])
            (entities is_dns_record st).
Proof.
  apply (certificate_arn_takes_precedence_over_zone sample_framework
           "example.com" "dist"
           "arn:aws:acm:us-east-1:123456789012:certificate/test-cert"
           "Z1234567890" None None);
    reflexivity.
Defined.

(** X3.  The constructs the constructor has declared when it returns, over
    any framework, in declaration order: the three buckets; the zone lookup
    when [hosted_zone_id] is non-empty; one certificate, imported when
    [certificate_arn] is non-empty and synthesized otherwise; the
    distribution, the two alarms and the dashboard; the four alias records
    when [hosted_zone_id] is non-empty; the deployment; the five outputs.
    The constructor declares nothing else; what the framework attaches to
    the stack on its own is not among them.  On a run cut short the
    constructor has declared a first part of this list. *)
Theorem returned_stack_shape
    (fw : Framework) (dn dp : string) (hz ca wa db : option string)
    (st : Stack) (o : Outcome unit) :
  StaticSiteStack_on fw dn dp hz ca wa db = (st, o) ->
  let declarations :=
    (["S3AccessLogsBucket"; "CloudFrontLogsBucket"; "SiteBucket"]
     ++ (if Py.truthy hz then ["Zone"] else [])
     ++ [if Py.truthy ca then "Cert" else "SiteCertificate"]
     ++ ["SiteDistribution"; "High5xxErrorRate"; "High4xxErrorRate";
         "SiteDashboard"]
     ++ (if Py.truthy hz
         then ["ApexAlias"; "ApexAliasIPv6"; "WwwAlias"; "WwwAliasIPv6"]
         else [])
     ++ ["DeploySite"; "DistributionDomainName"; "BucketName"; "SiteUrl";
         "CloudFrontLogsBucketName"; "S3AccessLogsBucketName"])%list in
  (o = Returned tt -> map fst (children st) = declarations)
  /\ exists rest, declarations = (map fst (children st) ++ rest)%list.
Proof.
  intros H. cbv zeta. split.
  - intros ->.
    apply (fun h => on_framework_returned _ _ _ _ _ _ _ _ _ h eq_refl) in H.
    destruct H as [G (_ & -> & _)].
    every_run hz ca; try discriminate G; vm_compute; reflexivity.
  - apply on_framework_cut_short in H as [rest E].
    match goal with
    | |- exists r, ?decl = _ =>
        exists (map fst rest
                ++ skipn (length (children
                            (fst (StaticSiteStack dn dp hz ca wa db)))) decl)%list
    end.
    rewrite (app_assoc (map fst (children st)) (map fst rest)),
      <- map_app, <- E.
    every_run hz ca; vm_compute; reflexivity.
Qed.

Lemma returned_stack_shape_witness :
  let r := StaticSiteStack_on sample_framework "example.com" "dist"
             (Some "Z1234567890") None None None in
  let declarations :=
    (["S3AccessLogsBucket"; "CloudFrontLogsBucket"; "SiteBucket"]
     ++ (if Py.truthy (Some "Z1234567890") then ["Zone"] else [])
     ++ [if Py.truthy None then "Cert" else "SiteCertificate"]
     ++ ["SiteDistribution"; "High5xxErrorRate"; "High4xxErrorRate";
         "SiteDashboard"]
     ++ (if Py.truthy (Some "Z1234567890")
         then ["ApexAlias"; "ApexAliasIPv6"; "WwwAlias"; "WwwAliasIPv6"]
         else [])
     ++ ["DeploySite"; "DistributionDomainName"; "BucketName"; "SiteUrl";
         "CloudFrontLogsBucketName"; "S3AccessLogsBucketName"])%list in
  (snd r = Returned tt -> map fst (children (fst r)) = declarations)
  /\ exists rest, declarations = (map fst (children (fst r)) ++ rest)%list.
Proof.
  apply (returned_stack_shape sample_framework "example.com" "dist"
           (Some "Z1234567890") None None None).
  reflexivity.
Defined.

(** X4.  In the stack of every run, returned or raised, each construct
    refers only to constructs declared before it, and to one of the kind its
    argument expects: a bucket for access logs, origin and deployment
    destination, the zone lookup for certificate validation and records, a
    certificate and the distribution where those are expected.  The
    resource-level suppressions are attached to declared constructs too. *)
Theorem references_declared_before_use
    (dn dp : string) (hz ca wa db : option string) :
  let st := fst (StaticSiteStack dn dp hz ca wa db) in
  declared_before_use [] (children st) = true
  /\ forallb (fun t => existsb (String.eqb (fst t)) (map fst (children st)))
             (resource_suppressions st) = true.
Proof.
  every_run hz ca; vm_compute; split; reflexivity.
Qed.

(** X5.  No run, returned or raised, declares two constructs under the same
    id. *)
Theorem construct_ids_never_repeat
    (dn dp : string) (hz ca wa db : option string) :
  NoDup (map fst (children (fst (StaticSiteStack dn dp hz ca wa db)))).
Proof.
  every_run hz ca; vm_compute;
    repeat (constructor; [cbn; intuition discriminate|]); constructor.
Qed.

(** X6.  Every bucket of every run, the two log buckets as much as the
    content bucket and also when the constructor raises, blocks all public
    access, is encrypted at rest and enforces TLS. *)
Theorem every_bucket_private_encrypted_tls
    (dn dp : string) (hz ca wa db : option string) :
  Forall (fun kc => private_encrypted_tls (snd kc))
         (children (fst (StaticSiteStack dn dp hz ca wa db))).
Proof.
  every_run hz ca; vm_compute;
    repeat (constructor;
            [first [exact I | repeat split; discriminate || reflexivity]|]);
    constructor.
Qed.

(** X7.  The buckets are declared the same way on every run: none of the six
    arguments reaches any setting of any of the three buckets. *)
Theorem buckets_independent_of_arguments
    (dn dp dn' dp' : string) (hz ca wa db hz' ca' wa' db' : option string) :
  entities is_bucket (fst (StaticSiteStack dn dp hz ca wa db))
  = entities is_bucket (fst (StaticSiteStack dn' dp' hz' ca' wa' db')).
Proof.
  transitivity
    (entities is_bucket
       (fst (StaticSiteStack EmptyString EmptyString None None None None))).
  - every_run hz ca; vm_compute; reflexivity.
  - every_run hz' ca'; vm_compute; reflexivity.
Qed.

(** X8.  A returned stack has exactly one deployment: it uploads the
    directory [dist_path] into the content bucket and invalidates every path
    of the distribution. *)
Theorem one_deployment_of_dist_path
    (dn dp : string) (hz ca wa db : option string) (st : Stack) :
  StaticSiteStack dn dp hz ca wa db = (st, Returned tt) ->
  entities is_deployment st
  = [("DeploySite",
      BucketDeployment
        {| s3deploy.sources := [s3deploy.asset dp];
           s3deploy.destination_bucket := "SiteBucket";
           s3deploy.distribution := "SiteDistribution";
           s3deploy.distribution_paths := ["/*"] |})].
Proof.
  intros H. on_returned H hz ca; vm_compute; reflexivity.
Qed.

Lemma one_deployment_of_dist_path_witness :
  entities is_deployment
    (fst (StaticSiteStack "example.com" "dist" None
            (Some "arn:aws:acm:us-east-1:123456789012:certificate/test-cert")
            None None))
  = [("DeploySite",
      BucketDeployment
        {| s3deploy.sources := [s3deploy.asset "dist"];
           s3deploy.destination_bucket := "SiteBucket";
           s3deploy.distribution := "SiteDistribution";
           s3deploy.distribution_paths := ["/*"] |})].
Proof.
  apply (one_deployment_of_dist_path "example.com" "dist" None
           (Some "arn:aws:acm:us-east-1:123456789012:certificate/test-cert")
           None None).
  vm_compute; reflexivity.
Defined.

(** X9.  A returned stack has exactly five outputs: the domain name of the
    distribution, the name of the content bucket, the site URL, which is
    https:// followed by the domain name, and the names of the two log
    buckets.  Only the site URL is known at construction time. *)
Theorem five_outputs
    (dn dp : string) (hz ca wa db : option string) (st : Stack) :
  StaticSiteStack dn dp hz ca wa db = (st, Returned tt) ->
  map (fun kc => (fst kc,
                  match snd kc with
                  | Output o => Some (value o)
                  | _ => None
                  end))
      (entities is_output st)
  = [("DistributionDomainName",
      Some (Attribute "SiteDistribution" "distribution_domain_name"));
     ("BucketName", Some (Attribute "SiteBucket" "bucket_name"));
     ("SiteUrl", Some (Literal ("https://" ++ dn)));
     ("CloudFrontLogsBucketName",
      Some (Attribute "CloudFrontLogsBucket" "bucket_name"));
     ("S3AccessLogsBucketName",
      Some (Attribute "S3AccessLogsBucket" "bucket_name"))].
Proof.
  intros H. on_returned H hz ca; vm_compute; reflexivity.
Qed.

Lemma five_outputs_witness :
  map (fun kc => (fst kc,
                  match snd kc with
                  | Output o => Some (value o)
                  | _ => None
                  end))
      (entities is_output
         (fst (StaticSiteStack "example.com" "dist" (Some "Z1234567890")
                 None None None)))
  = [("DistributionDomainName",
      Some (Attribute "SiteDistribution" "distribution_domain_name"));
     ("BucketName", Some (Attribute "SiteBucket" "bucket_name"));
     ("SiteUrl", Some (Literal ("https://" ++ "example.com")));
     ("CloudFrontLogsBucketName",
      Some (Attribute "CloudFrontLogsBucket" "bucket_name"));
     ("S3AccessLogsBucketName",
      Some (Attribute "S3AccessLogsBucket" "bucket_name"))].
Proof.
  apply (five_outputs "example.com" "dist" (Some "Z1234567890")
           None None None).
  vm_compute; reflexivity.
Defined.

(** X10.  A returned stack carries the rule suppressions of lines 281-298:
    AwsSolutions-S1 on the edge-log bucket, AwsSolutions-CFR3 on the
    distribution, and AwsSolutions-IAM4, -IAM5 and -L1 on the stack; every
    suppression comes with a reason of at least ten characters. *)
Theorem suppressions_of_returned_stack
    (dn dp : string) (hz ca wa db : option string) (st : Stack) :
  StaticSiteStack dn dp hz ca wa db = (st, Returned tt) ->
  map (fun t => (fst t, map id (snd t))) (resource_suppressions st)
  = [("CloudFrontLogsBucket", ["AwsSolutions-S1"]);
     ("SiteDistribution", ["AwsSolutions-CFR3"])]
  /\ map id (stack_suppressions st)
     = ["AwsSolutions-IAM4"; "AwsSolutions-IAM5"; "AwsSolutions-L1"]
  /\ forallb (fun r => Nat.leb 10 (String.length (reason r)))
             (flat_map snd (resource_suppressions st) ++ stack_suppressions st)
     = true.
Proof.
  intros H. on_returned H hz ca; vm_compute; repeat split.
Qed.

Lemma suppressions_of_returned_stack_witness :
  let st := fst (StaticSiteStack "example.com" "dist" None
              (Some "arn:aws:acm:us-east-1:123456789012:certificate/test-cert")
              None None) in
  map (fun t => (fst t, map id (snd t))) (resource_suppressions st)
  = [("CloudFrontLogsBucket", ["AwsSolutions-S1"]);
     ("SiteDistribution", ["AwsSolutions-CFR3"])]
  /\ map id (stack_suppressions st)
     = ["AwsSolutions-IAM4"; "AwsSolutions-IAM5"; "AwsSolutions-L1"]
  /\ forallb (fun r => Nat.leb 10 (String.length (reason r)))
             (flat_map snd (resource_suppressions st) ++ stack_suppressions st)
     = true.
Proof.
  apply (suppressions_of_returned_stack "example.com" "dist" None
           (Some "arn:aws:acm:us-east-1:123456789012:certificate/test-cert")
           None None).
  vm_compute; reflexivity.
Defined.

(** X11.  In a returned stack the content bucket is versioned, sends its
    server access logs to the origin-log bucket, and has one lifecycle rule
    that aborts incomplete multipart uploads after one day and expires
    noncurrent versions after thirty days without ever expiring current
    objects; the distribution reads from that bucket through origin access
    control. *)
Theorem site_bucket_versioned_logged_and_served
    (dn dp : string) (hz ca wa db : option string) (st : Stack) :
  StaticSiteStack dn dp hz ca wa db = (st, Returned tt) ->
  exists b d,
    lookup "SiteBucket" (children st) = Some (Bucket b)
    /\ lookup "SiteDistribution" (children st) = Some (Distribution d)
    /\ s3.versioned b = Some true
    /\ s3.server_access_logs_bucket b = Some "S3AccessLogsBucket"
    /\ s3.lifecycle_rules b
       = [{| s3.expiration := None;
             s3.abort_incomplete_multipart_upload_after :=
               Some (Duration_days 1);
             s3.noncurrent_version_expiration := Some (Duration_days 30) |}]
    /\ cloudfront.origin (cloudfront.default_behavior d)
       = cloudfront.S3BucketOrigin_with_origin_access_control "SiteBucket".
Proof.
  intros H. on_returned H hz ca;
    (do 2 eexists; split; [vm_compute; reflexivity|];
     split; [vm_compute; reflexivity|]; repeat split).
Qed.

Lemma site_bucket_versioned_logged_and_served_witness :
  exists b d,
    let st := fst (StaticSiteStack "example.com" "dist" None
                (Some "arn:aws:acm:us-east-1:123456789012:certificate/test-cert")
                None None) in
    lookup "SiteBucket" (children st) = Some (Bucket b)
    /\ lookup "SiteDistribution" (children st) = Some (Distribution d)
    /\ s3.versioned b = Some true
    /\ s3.server_access_logs_bucket b = Some "S3AccessLogsBucket"
    /\ s3.lifecycle_rules b
       = [{| s3.expiration := None;
             s3.abort_incomplete_multipart_upload_after :=
               Some (Duration_days 1);
             s3.noncurrent_version_expiration := Some (Duration_days 30) |}]
    /\ cloudfront.origin (cloudfront.default_behavior d)
       = cloudfront.S3BucketOrigin_with_origin_access_control "SiteBucket".
Proof.
  apply (site_bucket_versioned_logged_and_served "example.com" "dist" None
           (Some "arn:aws:acm:us-east-1:123456789012:certificate/test-cert")
           None None).
  vm_compute; reflexivity.
Defined.

(** X12.  The resolved dashboard name never contains a dot and is as long as
    the name it was resolved from, whatever the domain name and the
    dashboard name are. *)
Theorem resolved_dashboard_name_has_no_dot
    (dn : string) (db : option string) :
  has_dot (resolved_dashboard_name dn db) = false
  /\ String.length (resolved_dashboard_name dn db)
     = String.length (Py.or_ db dn).
Proof.
  unfold resolved_dashboard_name. rewrite replace_dot_dash.
  induction (Py.or_ db dn) as [|c rest [IHdot IHlen]]; [split; reflexivity|].
  cbn. rewrite IHlen. split; [|reflexivity].
  destruct (Ascii.eqb_spec c "."%char) as [->|Hne]; [exact IHdot|].
  destruct (Ascii.eqb_spec c "."%char) as [E|_]; [contradiction|exact IHdot].
Qed.

(** X13.  [dist_path], [web_acl_id] and [dashboard_name] reach the
    deployment, the distribution and the dashboard only.  Over one and the
    same framework, two calls that differ in these three arguments and both
    return have declared the same other constructs; and one of them raises
    the constructor's ValueError exactly when the other does, leaving the
    same constructs declared. *)
Theorem optional_arguments_are_local
    (fw : Framework) (dn dp dp' : string)
    (hz ca wa wa' db db' : option string) :
  let r := StaticSiteStack_on fw dn dp hz ca wa db in
  let r' := StaticSiteStack_on fw dn dp' hz ca wa' db' in
  (snd r = Returned tt -> snd r' = Returned tt ->
   entities outside_optional_arguments (fst r)
   = entities outside_optional_arguments (fst r'))
  /\ (forall m, snd r = Raised (ValueError m) -> r' = r).
Proof.
  cbv zeta. split.
  - destruct (StaticSiteStack_on fw dn dp hz ca wa db) as [st o] eqn:H.
    destruct (StaticSiteStack_on fw dn dp' hz ca wa' db') as [st' o'] eqn:H'.
    cbn [fst snd]. intros -> ->.
    apply (fun h => on_framework_returned _ _ _ _ _ _ _ _ _ h eq_refl) in H.
    apply (fun h => on_framework_returned _ _ _ _ _ _ _ _ _ h eq_refl) in H'.
    destruct H as [G A], H' as [_ A'].
    rewrite (agrees_entities _ _ _ A), (agrees_entities _ _ _ A').
    every_run hz ca; try discriminate G; vm_compute; reflexivity.
  - intros m Hm.
    destruct (StaticSiteStack_on fw dn dp hz ca wa db) as [st o] eqn:H.
    cbn [snd] in Hm. subst o.
    pose proof H as H0.
    apply (fun h => on_framework_guard _ _ _ _ _ _ _ _ _ h m eq_refl) in H0.
    destruct H0 as (G & _). rewrite <- H. clear H.
    every_run hz ca; try discriminate G; vm_compute; reflexivity.
Qed.

(** X14.  In a returned stack both alarms are on the Average statistic and
    treat missing data as not breaching, so an idle distribution does not
    raise them. *)
Theorem alarms_not_breaching_on_missing_data
    (dn dp : string) (hz ca wa db : option string) (st : Stack) :
  StaticSiteStack dn dp hz ca wa db = (st, Returned tt) ->
  Forall (fun kc =>
            match snd kc with
            | Alarm a =>
                cloudwatch.treat_missing_data a = cloudwatch.NOT_BREACHING
                /\ cloudwatch.statistic (cloudwatch.metric a) = "Average"
            | _ => False
            end)
         (entities is_alarm st).
Proof.
  intros H. on_returned H hz ca; vm_compute;
    repeat (constructor; [split; reflexivity|]); constructor.
Qed.

Lemma alarms_not_breaching_on_missing_data_witness :
  Forall (fun kc =>
            match snd kc with
            | Alarm a =>
                cloudwatch.treat_missing_data a = cloudwatch.NOT_BREACHING
                /\ cloudwatch.statistic (cloudwatch.metric a) = "Average"
            | _ => False
            end)
         (entities is_alarm
            (fst (StaticSiteStack "example.com" "dist" (Some "Z1234567890")
                    None None None))).
Proof.
  apply (alarms_not_breaching_on_missing_data
           "example.com" "dist" (Some "Z1234567890") None None None).
  vm_compute; reflexivity.
Defined.

(** X15.  The edge-log bucket is declared but not used: on every run the
    only construct that refers to it is the output of its name (on a raised
    run, nothing does); in particular the distribution does not log to
    it.  The origin-log bucket is referred to by the content bucket. *)
Theorem edge_log_bucket_is_not_wired
    (dn dp : string) (hz ca wa db : option string) :
  let st := fst (StaticSiteStack dn dp hz ca wa db) in
  referrers "CloudFrontLogsBucket" st
  = (if Py.truthy ca || Py.truthy hz
     then ["CloudFrontLogsBucketName"] else [])
  /\ referrers "S3AccessLogsBucket" st
     = "SiteBucket" ::
       (if Py.truthy ca || Py.truthy hz
        then ["S3AccessLogsBucketName"] else []).
Proof.
  every_run hz ca; vm_compute; split; reflexivity.
Qed.
